(** * Habit-Tracker: a shallow embedding of HabitTrackerApp.py

    The Python program keeps [Habit] objects (name, periodicity, creation
    timestamp, checkoff timestamps, a running streak and the date of the last
    checkoff) and a [HabitTracker] indexing them by name and by periodicity.

    - [datetime.date] and [datetime.datetime] are modelled by their fields, as
      CPython stores them; the calendar arithmetic of the [datetime] module
      ([_ymd2ord], [_ord2ymd], date comparison, [date - timedelta]) is
      translated from its pure-Python implementation.
    - Python integers are unbounded: [Z].
    - The clock ([date.today()], [datetime.now()]) is an explicit argument.
    - Habit objects are shared between the name map and the periodicity
      buckets; the tracker carries an explicit heap of objects indexed by
      object identity, so a mutation through one index is seen by the other. *)

From Stdlib Require Import ZArith List String Ascii Bool Lia Permutation.
Import ListNotations.
Open Scope Z_scope.

(** ** The calendar of the [datetime] module *)

Record date := mkdate { year : Z; month : Z; day : Z }.

(** [_DAYS_IN_MONTH] and [_DAYS_BEFORE_MONTH], indexed from 1 (index 0 holds -1). *)
Definition DAYS_IN_MONTH (m : Z) : Z :=
  nth (Z.to_nat m) [-1; 31; 28; 31; 30; 31; 30; 31; 31; 30; 31; 30; 31] 0.

Definition DAYS_BEFORE_MONTH (m : Z) : Z :=
  nth (Z.to_nat m) [-1; 0; 31; 59; 90; 120; 151; 181; 212; 243; 273; 304; 334] 0.

Definition is_leap (y : Z) : bool :=
  (y mod 4 =? 0) && (negb (y mod 100 =? 0) || (y mod 400 =? 0)).

Definition days_before_year (y : Z) : Z :=
  let y' := y - 1 in y' * 365 + y' / 4 - y' / 100 + y' / 400.

Definition days_in_month (y m : Z) : Z :=
  if (m =? 2) && is_leap y then 29 else DAYS_IN_MONTH m.

Definition days_before_month (y m : Z) : Z :=
  DAYS_BEFORE_MONTH m + (if (m >? 2) && is_leap y then 1 else 0).

(** [_ymd2ord], i.e. [date.toordinal]. *)
Definition toordinal (d : date) : Z :=
  days_before_year (year d) + days_before_month (year d) (month d) + day d.

Definition DI400Y : Z := 146097.
Definition DI100Y : Z := 36524.
Definition DI4Y : Z := 1461.
Definition MAXORDINAL : Z := 3652059.

(** [_ord2ymd], i.e. [date.fromordinal]. *)
Definition fromordinal (n0 : Z) : date :=
  let n := n0 - 1 in
  let n400 := n / DI400Y in let n := n mod DI400Y in
  let yr := n400 * 400 + 1 in
  let n100 := n / DI100Y in let n := n mod DI100Y in
  let n4 := n / DI4Y in let n := n mod DI4Y in
  let n1 := n / 365 in let n := n mod 365 in
  let yr := yr + n100 * 100 + n4 * 4 + n1 in
  if (n1 =? 4) || (n100 =? 4) then mkdate (yr - 1) 12 31 else
  let leapyear := (n1 =? 3) && (negb (n4 =? 24) || (n100 =? 3)) in
  let mo := Z.shiftr (n + 50) 5 in
  let preceding := DAYS_BEFORE_MONTH mo + (if (mo >? 2) && leapyear then 1 else 0) in
  let '(mo, preceding) :=
    if preceding >? n
    then (mo - 1, preceding - (DAYS_IN_MONTH (mo - 1)
                               + (if (mo - 1 =? 2) && leapyear then 1 else 0)))
    else (mo, preceding) in
  mkdate yr mo (n - preceding + 1).

(** [_check_date_fields]: the dates a [date] object can hold. *)
Definition valid_date (d : date) : bool :=
  (1 <=? year d) && (year d <=? 9999) && (1 <=? month d) && (month d <=? 12)
  && (1 <=? day d) && (day d <=? days_in_month (year d) (month d)).

(** [date.__lt__]: comparison of the [(year, month, day)] tuples. *)
Definition date_lt (a b : date) : bool :=
  (year a <? year b)
  || ((year a =? year b) && ((month a <? month b)
                             || ((month a =? month b) && (day a <? day b)))).

(** [(a - b).days] for two dates. *)
Definition date_diff_days (a b : date) : Z := toordinal a - toordinal b.

(** [d - timedelta(days=k)]: [None] stands for the [OverflowError] raised
    when the result leaves [1 .. MAXORDINAL]. *)
Definition date_sub_days (d : date) (k : Z) : option date :=
  let o := toordinal d - k in
  if (0 <? o) && (o <=? MAXORDINAL) then Some (fromordinal o) else None.

(** ** Timestamps *)

Record datetime := mkdatetime {
  dt_year : Z; dt_month : Z; dt_day : Z;
  dt_hour : Z; dt_minute : Z; dt_second : Z; dt_microsecond : Z }.

(** [datetime.date()] *)
Definition dt_date (t : datetime) : date := mkdate (dt_year t) (dt_month t) (dt_day t).

Definition valid_datetime (t : datetime) : bool :=
  valid_date (dt_date t)
  && (0 <=? dt_hour t) && (dt_hour t <? 24)
  && (0 <=? dt_minute t) && (dt_minute t <? 60)
  && (0 <=? dt_second t) && (dt_second t <? 60)
  && (0 <=? dt_microsecond t) && (dt_microsecond t <? 1000000).

(** *** [datetime.isoformat()] and [datetime.fromisoformat()] *)

Definition digit_char (d : Z) : ascii := ascii_of_nat (Z.to_nat (48 + d)).

Definition char_digit (c : ascii) : option Z :=
  let n := Z.of_nat (nat_of_ascii c) in
  if (48 <=? n) && (n <=? 57) then Some (n - 48) else None.

(** ["%0kd" % n] for a field value [0 <= n < 10^k]. *)
Fixpoint show_fixed (k : nat) (n : Z) : list ascii :=
  match k with
  | O => []
  | S k' => digit_char (n / 10 ^ Z.of_nat k') :: show_fixed k' (n mod 10 ^ Z.of_nat k')
  end.

(** Reads exactly [k] decimal digits. *)
Fixpoint parse_fixed (k : nat) (acc : Z) (l : list ascii) : option (Z * list ascii) :=
  match k with
  | O => Some (acc, l)
  | S k' =>
      match l with
      | [] => None
      | c :: l' =>
          match char_digit c with
          | Some d => parse_fixed k' (acc * 10 + d) l'
          | None => None
          end
      end
  end.

Definition expect (c : ascii) (l : list ascii) : option (list ascii) :=
  match l with
  | c' :: l' => if Ascii.eqb c c' then Some l' else None
  | [] => None
  end.

(** [isoformat()] with the default separator ['T'] and [timespec='auto']:
    [YYYY-MM-DDTHH:MM:SS], followed by [.ffffff] when the microsecond is not 0. *)
Definition isoformat_chars (t : datetime) : list ascii :=
  show_fixed 4 (dt_year t) ++ ["-"%char] ++ show_fixed 2 (dt_month t) ++ ["-"%char]
  ++ show_fixed 2 (dt_day t) ++ ["T"%char]
  ++ show_fixed 2 (dt_hour t) ++ [":"%char] ++ show_fixed 2 (dt_minute t) ++ [":"%char]
  ++ show_fixed 2 (dt_second t)
  ++ (if dt_microsecond t =? 0 then [] else "."%char :: show_fixed 6 (dt_microsecond t)).

Definition isoformat (t : datetime) : string := string_of_list_ascii (isoformat_chars t).

(** [datetime.fromisoformat], on the forms [isoformat()] emits
    ([YYYY-MM-DDTHH:MM:SS] with an optional [.ffffff]); [None] is the
    [ValueError] raised on a string it rejects. *)
Definition fromisoformat (s : string) : option datetime :=
  let l := list_ascii_of_string s in
  match parse_fixed 4 0 l with None => None | Some (y, l) =>
  match expect "-" l with None => None | Some l =>
  match parse_fixed 2 0 l with None => None | Some (mo, l) =>
  match expect "-" l with None => None | Some l =>
  match parse_fixed 2 0 l with None => None | Some (d, l) =>
  match expect "T" l with None => None | Some l =>
  match parse_fixed 2 0 l with None => None | Some (h, l) =>
  match expect ":" l with None => None | Some l =>
  match parse_fixed 2 0 l with None => None | Some (mi, l) =>
  match expect ":" l with None => None | Some l =>
  match parse_fixed 2 0 l with None => None | Some (sec, l) =>
  let us := match l with
            | [] => Some 0
            | c :: l' =>
                if Ascii.eqb c "." then
                  match parse_fixed 6 0 l' with
                  | Some (us, []) => Some us
                  | _ => None
                  end
                else None
            end in
  match us with None => None | Some us =>
  let t := mkdatetime y mo d h mi sec us in
  if valid_datetime t then Some t else None
  end end end end end end end end end end end end.

(** ** [class Habit] *)

Record Habit := mkHabit {
  name : string;
  periodicity : Z;
  created_at : datetime;
  checkoffs : list datetime;
  streak : Z;
  last_checkoff_date : option date }.

(** A placeholder timestamp, only used as the default of [nth] at indices that
    the code keeps in range. *)
Definition dt0 : datetime := mkdatetime 1 1 1 0 0 0 0.

(** [Habit.__init__(name, periodicity, created_at=None)]; [now] is the value
    [datetime.now()] returns, read only when no [created_at] is given (a
    [datetime] object is always truthy). *)
Definition Habit_init (nm : string) (p : Z) (created : option datetime) (now : datetime)
  : Habit :=
  mkHabit nm p (match created with Some c => c | None => now end) [] 0 None.

(** [Habit.checkoff()]: [today] is [date.today()] and [now] is [datetime.now()]. *)
Definition checkoff (h : Habit) (today : date) (now : datetime) : Habit :=
  let s :=
    match last_checkoff_date h with
    | Some l =>
        let delta := date_diff_days today l in
        if delta >? periodicity h then 0 else streak h
    | None => streak h
    end in
  mkHabit (name h) (periodicity h) (created_at h) (checkoffs h ++ [now])
          (s + 1) (Some today).

(** [Habit.current_streak()]: [today] is [date.today()]. *)
Definition current_streak (h : Habit) (today : date) : Z :=
  match last_checkoff_date h with
  | Some l =>
      let delta := date_diff_days today l in
      if delta <=? periodicity h then streak h else 0
  | None => 0
  end.

(** [max(xs)] on the non-empty lists it is applied to. *)
Definition py_max (xs : list Z) : Z :=
  match xs with
  | [] => 0
  | x :: t => fold_left Z.max t x
  end.

(** The body of the [for i in range(1, len(self.checkoffs))] loop of
    [longest_streak], on the state [(streaks, current_streak)]. *)
Definition longest_loop_body (p : Z) (cs : list datetime) (st : list Z * Z) (i : nat)
  : list Z * Z :=
  let '(streaks, cur) := st in
  if date_diff_days (dt_date (nth i cs dt0)) (dt_date (nth (i - 1) cs dt0)) <=? p
  then (streaks, cur + 1)
  else (streaks ++ [cur], 1).

(** [Habit.longest_streak()] *)
Definition longest_streak (h : Habit) : Z :=
  match checkoffs h with
  | [] => 0
  | _ =>
      let '(streaks, cur) :=
        fold_left (longest_loop_body (periodicity h) (checkoffs h))
                  (seq 1 (List.length (checkoffs h) - 1)) ([], 1) in
      py_max (streaks ++ [cur])
  end.

(** [Habit.to_dict()]: the four keys of the dictionary. *)
Record HabitDict := mkHabitDict {
  d_name : string;
  d_periodicity : Z;
  d_created_at : string;
  d_checkoffs : list string }.

Definition to_dict (h : Habit) : HabitDict :=
  mkHabitDict (name h) (periodicity h) (isoformat (created_at h))
              (map isoformat (checkoffs h)).

(** [[datetime.fromisoformat(dt) for dt in ...]]; [None] if one entry fails. *)
Fixpoint parse_all (l : list string) : option (list datetime) :=
  match l with
  | [] => Some []
  | s :: l' =>
      match fromisoformat s with
      | None => None
      | Some t => match parse_all l' with Some ts => Some (t :: ts) | None => None end
      end
  end.

(** [Habit.from_dict(data)]: [None] is the exception raised on malformed data;
    [now] is the clock [Habit.__init__] would read without a [created_at]. *)
Definition from_dict (data : HabitDict) (now : datetime) : option Habit :=
  match fromisoformat (d_created_at data) with
  | None => None
  | Some c =>
      let h := Habit_init (d_name data) (d_periodicity data) (Some c) now in
      match parse_all (d_checkoffs data) with
      | None => None
      | Some cs =>
          let h := mkHabit (name h) (periodicity h) (created_at h) cs (streak h)
                           (last_checkoff_date h) in
          match cs with
          | [] => Some h
          | _ => Some (mkHabit (name h) (periodicity h) (created_at h) (checkoffs h)
                               (streak h) (Some (dt_date (last cs dt0))))
          end
      end
  end.

(** *** The streak walk, as the specification words it *)

Fixpoint adj_pairs {A : Type} (l : list A) : list (A * A) :=
  match l with
  | a :: ((b :: _) as t) => (a, b) :: adj_pairs t
  | _ => []
  end.

(** One step of the pairwise walk: extend the run while the calendar gap is
    at most the periodicity, otherwise close it and restart at 1. *)
Definition walk_step (p : Z) (st : list Z * Z) (pr : datetime * datetime) : list Z * Z :=
  let '(runs, cur) := st in
  if date_diff_days (dt_date (snd pr)) (dt_date (fst pr)) <=? p
  then (runs, cur + 1)
  else (runs ++ [cur], 1).

Definition streak_walk (p : Z) (cs : list datetime) : list Z * Z :=
  fold_left (walk_step p) (adj_pairs cs) ([], 1).

Definition longest_streak_spec (h : Habit) : Z :=
  let '(runs, cur) := streak_walk (periodicity h) (checkoffs h) in py_max (runs ++ [cur]).

(** The ["Exercise"] sample habit of [cli()]: the checkoffs are
    [datetime.strptime(date, "%Y-%m-%d")], i.e. at midnight. *)
Definition midnight (y m d : Z) : datetime := mkdatetime y m d 0 0 0 0.

Definition exercise_habit : Habit :=
  mkHabit "Exercise" 1 (midnight 2023 7 1)
          [midnight 2023 7 1; midnight 2023 7 2; midnight 2023 7 3;
           midnight 2023 7 5; midnight 2023 7 6; midnight 2023 7 7]
          0 (Some (mkdate 2023 7 7)).

(** ** [class HabitTracker] *)

(** *** Python dictionaries as association lists in insertion order *)

Section Dict.
Context {K V : Type} (eqk : K -> K -> bool).

(** [d.get(k)] *)
Fixpoint dict_get (k : K) (d : list (K * V)) : option V :=
  match d with
  | [] => None
  | (k', v) :: d' => if eqk k k' then Some v else dict_get k d'
  end.

(** [d[k] = v]: an existing key keeps its position, a new key goes last. *)
Fixpoint dict_set (k : K) (v : V) (d : list (K * V)) : list (K * V) :=
  match d with
  | [] => [(k, v)]
  | (k', v') :: d' => if eqk k k' then (k', v) :: d' else (k', v') :: dict_set k v d'
  end.

(** [d.pop(k)] on a present key: the entry is removed. *)
Fixpoint dict_del (k : K) (d : list (K * V)) : list (K * V) :=
  match d with
  | [] => []
  | (k', v') :: d' => if eqk k k' then d' else (k', v') :: dict_del k d'
  end.
End Dict.

(** [dd[k]] on a [defaultdict(list)]: a missing key is inserted with a new
    empty list, which is returned. *)
Definition defaultdict_getitem {K V : Type} (eqk : K -> K -> bool) (k : K)
  (d : list (K * list V)) : list V * list (K * list V) :=
  match dict_get eqk k d with
  | Some v => (v, d)
  | None => ([], d ++ [(k, [])])
  end.

(** Object identities of [Habit] objects. *)
Definition oid := nat.

(** [lst.remove(x)] on a list of objects: removes the first element that is
    [x] ([Habit] has no [__eq__], so equality is identity); [None] is the
    [ValueError] raised when [x] is absent. *)
Fixpoint list_remove (x : oid) (l : list oid) : option (list oid) :=
  match l with
  | [] => None
  | y :: l' =>
      if Nat.eqb x y then Some l'
      else match list_remove x l' with Some r => Some (y :: r) | None => None end
  end.

Record HabitTracker := mkTracker {
  habits : list (string * oid);
  habits_by_periodicity : list (Z * list oid);
  heap : oid -> option Habit;
  next_oid : oid }.

Definition heap_upd (hp : oid -> option Habit) (o : oid) (hb : Habit) : oid -> option Habit :=
  fun o' => if Nat.eqb o' o then Some hb else hp o'.

(** [HabitTracker.__init__] *)
Definition HabitTracker_init : HabitTracker := mkTracker [] [] (fun _ => None) 0%nat.

(** [HabitTracker.add_habit(name, periodicity)]; [now] feeds [Habit.__init__]. *)
Definition add_habit (t : HabitTracker) (nm : string) (p : Z) (now : datetime)
  : HabitTracker :=
  let o := next_oid t in
  let hp := heap_upd (heap t) o (Habit_init nm p None now) in
  let hs := dict_set String.eqb nm o (habits t) in
  let '(bucket, hbp) := defaultdict_getitem Z.eqb p (habits_by_periodicity t) in
  mkTracker hs (dict_set Z.eqb p (bucket ++ [o]) hbp) hp (S o).

(** [HabitTracker.delete_habit(name)]; [None] is an exception ([list.remove]
    on an object missing from its bucket, or an identity with no object). *)
Definition delete_habit (t : HabitTracker) (nm : string) : option HabitTracker :=
  match dict_get String.eqb nm (habits t) with
  | None => Some t
  | Some o =>
      let hs := dict_del String.eqb nm (habits t) in
      match heap t o with
      | None => None
      | Some hb =>
          let '(bucket, hbp) :=
            defaultdict_getitem Z.eqb (periodicity hb) (habits_by_periodicity t) in
          match list_remove o bucket with
          | None => None
          | Some bucket' =>
              Some (mkTracker hs (dict_set Z.eqb (periodicity hb) bucket' hbp)
                              (heap t) (next_oid t))
          end
      end
  end.

Definition not_found_message (nm : string) : string :=
  "Habit '" ++ nm ++ "' does not exist.".

(** [HabitTracker.checkoff_habit(name)]: the new state and the printed lines. *)
Definition checkoff_habit (t : HabitTracker) (nm : string) (today : date) (now : datetime)
  : HabitTracker * list string :=
  match dict_get String.eqb nm (habits t) with
  | Some o =>
      match heap t o with
      | Some hb =>
          (mkTracker (habits t) (habits_by_periodicity t)
                     (heap_upd (heap t) o (checkoff hb today now)) (next_oid t), [])
      | None => (t, [])
      end
  | None => (t, [not_found_message nm])
  end.

(** [HabitTracker.get_habits_by_periodicity(periodicity)]: the returned
    bucket (as object identities) and the state after the lookup. *)
Definition get_habits_by_periodicity (t : HabitTracker) (p : Z) : list oid * HabitTracker :=
  let '(bucket, hbp) := defaultdict_getitem Z.eqb p (habits_by_periodicity t) in
  (bucket, mkTracker (habits t) hbp (heap t) (next_oid t)).

(** [self.habits.values()] *)
Definition habit_values (t : HabitTracker) : list Habit :=
  flat_map (fun '(_, o) => match heap t o with Some hb => [hb] | None => [] end) (habits t).

(** The test of the loop of [habits_struggled_last_month]. *)
Definition struggled (one_month_ago : date) (hb : Habit) : bool :=
  match checkoffs hb with
  | [] => true
  | cs => date_lt (dt_date (last cs dt0)) one_month_ago
  end.

(** [HabitTracker.habits_struggled_last_month()]: [today] is [date.today()];
    [None] is the [OverflowError] of [today - timedelta(days=30)]. *)
Definition habits_struggled_last_month (t : HabitTracker) (today : date)
  : option (list string) :=
  match date_sub_days today 30 with
  | None => None
  | Some one_month_ago => Some (map name (filter (struggled one_month_ago) (habit_values t)))
  end.

(** *** Runs of the tracker *)

Inductive tracker_op :=
| OpAdd (nm : string) (p : Z) (now : datetime)
| OpDelete (nm : string)
| OpCheckoff (nm : string) (today : date) (now : datetime).

Definition tracker_step (t : HabitTracker) (op : tracker_op) : option HabitTracker :=
  match op with
  | OpAdd nm p now => Some (add_habit t nm p now)
  | OpDelete nm => delete_habit t nm
  | OpCheckoff nm today now => Some (fst (checkoff_habit t nm today now))
  end.

Fixpoint run_ops (t : HabitTracker) (ops : list tracker_op) : option HabitTracker :=
  match ops with
  | [] => Some t
  | op :: ops' =>
      match tracker_step t op with Some t' => run_ops t' ops' | None => None end
  end.

(** The index invariant of the data model: the objects of the buckets are
    pairwise distinct and are, as a set, the objects of the name map. *)
Fixpoint nodupb (l : list oid) : bool :=
  match l with
  | [] => true
  | x :: l' => negb (existsb (Nat.eqb x) l') && nodupb l'
  end.

Definition bucket_oids (t : HabitTracker) : list oid := flat_map snd (habits_by_periodicity t).
Definition name_oids (t : HabitTracker) : list oid := map snd (habits t).

Definition index_invariant (t : HabitTracker) : bool :=
  nodupb (bucket_oids t)
  && forallb (fun o => existsb (Nat.eqb o) (name_oids t)) (bucket_oids t)
  && forallb (fun o => existsb (Nat.eqb o) (bucket_oids t)) (name_oids t).


(** ** [HabitTracker]: queries, saving and loading *)

(** [HabitTracker.get_all_habits()] *)
Definition get_all_habits (t : HabitTracker) : list Habit := habit_values t.

(** [HabitTracker.longest_streak_all()]: [max(..., default=0)]. *)
Definition longest_streak_all (t : HabitTracker) : Z :=
  match map longest_streak (habit_values t) with
  | [] => 0
  | x :: xs => fold_left Z.max xs x
  end.

(** [HabitTracker.longest_streak_for_habit(name)] *)
Definition longest_streak_for_habit (t : HabitTracker) (nm : string) : Z :=
  match dict_get String.eqb nm (habits t) with
  | Some o => match heap t o with Some hb => longest_streak hb | None => 0 end
  | None => 0
  end.

(** [self.habits_by_periodicity[p].append(o)] on the [defaultdict(list)]. *)
Definition bucket_append (p : Z) (o : oid) (hbp : list (Z * list oid)) : list (Z * list oid) :=
  let '(bucket, hbp') := defaultdict_getitem Z.eqb p hbp in
  dict_set Z.eqb p (bucket ++ [o]) hbp'.

(** [HabitTracker.save_to_file()]: the dictionary [json.dump] writes, as its
    [(name, habit.to_dict())] items in order. The JSON text itself is not
    modelled: [json.load] gives back these items. *)
Definition save_to_file (t : HabitTracker) : list (string * HabitDict) :=
  flat_map (fun '(nm, o) => match heap t o with Some hb => [(nm, to_dict hb)] | None => [] end)
           (habits t).

(** The dictionary comprehension [{name: Habit.from_dict(h) for name, h in
    data.items()}]: each new [Habit] gets a fresh identity; [None] is the
    exception of a [from_dict] that fails. *)
Fixpoint load_habits (data : list (string * HabitDict)) (now : datetime)
  (hs : list (string * oid)) (hp : oid -> option Habit) (o : oid)
  : option (list (string * oid) * (oid -> option Habit) * oid) :=
  match data with
  | [] => Some (hs, hp, o)
  | (nm, hd) :: data' =>
      match from_dict hd now with
      | None => None
      | Some hb => load_habits data' now (dict_set String.eqb nm o hs) (heap_upd hp o hb) (S o)
      end
  end.

(** The loop [for habit in self.habits.values(): ...append(habit)] on a
    fresh [defaultdict(list)]. *)
Definition index_by_periodicity (hp : oid -> option Habit) (hs : list (string * oid))
  : list (Z * list oid) :=
  fold_left (fun hbp '(_, o) =>
               match hp o with
               | Some hb => bucket_append (periodicity hb) o hbp
               | None => hbp
               end) hs [].

(** [HabitTracker.load_from_file()]: [file] is what [json.load] returns, or
    [None] when the file does not exist ([FileNotFoundError] is caught);
    [None] as result is an exception that escapes. *)
Definition load_from_file (t : HabitTracker) (file : option (list (string * HabitDict)))
  (now : datetime) : option HabitTracker :=
  match file with
  | None => Some t
  | Some data =>
      match load_habits data now [] (heap t) (next_oid t) with
      | None => None
      | Some (hs, hp, o) => Some (mkTracker hs (index_by_periodicity hp hs) hp o)
      end
  end.

(** The same loader with [datetime.fromisoformat] as a parameter [parse]
    ([None] for its [ValueError]): Python's parser accepts more forms than the
    [fromisoformat] above, which reads back only what [isoformat()] writes. *)
Fixpoint parse_all_by (parse : string -> option datetime) (l : list string)
  : option (list datetime) :=
  match l with
  | [] => Some []
  | s :: l' =>
      match parse s with
      | None => None
      | Some t => match parse_all_by parse l' with Some ts => Some (t :: ts) | None => None end
      end
  end.

Definition from_dict_by (parse : string -> option datetime) (data : HabitDict) (now : datetime)
  : option Habit :=
  match parse (d_created_at data) with
  | None => None
  | Some c =>
      let h := Habit_init (d_name data) (d_periodicity data) (Some c) now in
      match parse_all_by parse (d_checkoffs data) with
      | None => None
      | Some cs =>
          let h := mkHabit (name h) (periodicity h) (created_at h) cs (streak h)
                           (last_checkoff_date h) in
          match cs with
          | [] => Some h
          | _ => Some (mkHabit (name h) (periodicity h) (created_at h) (checkoffs h)
                               (streak h) (Some (dt_date (last cs dt0))))
          end
      end
  end.

Fixpoint load_habits_by (parse : string -> option datetime) (data : list (string * HabitDict))
  (now : datetime) (hs : list (string * oid)) (hp : oid -> option Habit) (o : oid)
  : option (list (string * oid) * (oid -> option Habit) * oid) :=
  match data with
  | [] => Some (hs, hp, o)
  | (nm, hd) :: data' =>
      match from_dict_by parse hd now with
      | None => None
      | Some hb =>
          load_habits_by parse data' now (dict_set String.eqb nm o hs) (heap_upd hp o hb) (S o)
      end
  end.

Definition load_from_file_by (parse : string -> option datetime) (t : HabitTracker)
  (file : option (list (string * HabitDict))) (now : datetime) : option HabitTracker :=
  match file with
  | None => Some t
  | Some data =>
      match load_habits_by parse data now [] (heap t) (next_oid t) with
      | None => None
      | Some (hs, hp, o) => Some (mkTracker hs (index_by_periodicity hp hs) hp o)
      end
  end.

(** ** [get_user_input] *)

(** A Python [str], as its sequence of Unicode code points. *)
Definition pystr : Type := list Z.

(** A literal of the source, all of whose characters are ASCII. *)
Definition pystr_of_string (s : string) : pystr :=
  map (fun c => Z.of_nat (nat_of_ascii c)) (list_ascii_of_string s).

(** [==] on [str]. *)
Fixpoint pystr_eqb (a b : pystr) : bool :=
  match a, b with
  | [], [] => true
  | x :: a', y :: b' => (x =? y) && pystr_eqb a' b'
  | _, _ => false
  end.

(** The code points [str.strip()] removes, those for which [str.isspace()]
    holds: tab to carriage return, the separators 0x1c to 0x1f, space, next
    line, no-break space, ogham space mark, the spaces 0x2000 to 0x200a, the
    line and paragraph separators, narrow no-break space, medium mathematical
    space and ideographic space. *)
Definition space_code_points : list Z :=
  [9; 10; 11; 12; 13; 28; 29; 30; 31; 32; 133; 160; 5760;
   8192; 8193; 8194; 8195; 8196; 8197; 8198; 8199; 8200; 8201; 8202;
   8232; 8233; 8239; 8287; 12288].

Definition is_space (c : Z) : bool := existsb (Z.eqb c) space_code_points.

Fixpoint lstrip_chars (l : pystr) : pystr :=
  match l with
  | [] => []
  | c :: l' => if is_space c then lstrip_chars l' else l
  end.

(** [s.strip()] *)
Definition py_strip (s : pystr) : pystr := rev (lstrip_chars (rev (lstrip_chars s))).

(** [input(prompt).strip().lower()] for the line [line]; [py_lower] is
    [str.lower()], Unicode's case mapping, which is left as a parameter. *)
Definition normalize_response (py_lower : pystr -> pystr) (line : pystr) : pystr :=
  py_lower (py_strip line).

(** [sep.join(l)] *)
Fixpoint py_join (sep : pystr) (l : list pystr) : pystr :=
  match l with
  | [] => []
  | [x] => x
  | x :: l' => x ++ sep ++ py_join sep l'
  end.

(** [f"Please enter one of the following: {', '.join(valid_responses)}"] *)
Definition please_enter (valid : list pystr) : pystr :=
  pystr_of_string "Please enter one of the following: "
  ++ py_join (pystr_of_string ", ") valid.

(** [get_user_input(prompt, valid_responses)] reading the lines [lines] of
    standard input: the answer ([None] is the [EOFError] of [input()] once
    the lines run out) and the text written, one entry per [input(prompt)]
    prompt and per [print]. *)
Fixpoint get_user_input (py_lower : pystr -> pystr) (prompt : pystr) (valid : list pystr)
  (lines : list pystr) : option pystr * list pystr :=
  match lines with
  | [] => (None, [prompt])
  | line :: rest =>
      let response := normalize_response py_lower line in
      if existsb (pystr_eqb response) valid then (Some response, [prompt])
      else
        let '(r, out) := get_user_input py_lower prompt valid rest in
        (r, prompt :: please_enter valid :: out)
  end.

(** ** The score of [cli()] *)

(** The [questions] of [cli()]. *)
Definition cli_questions : list string :=
  ["Did you read 10 pages today? "; "Did you exercise today? ";
   "Did you drink 2.5 liters of water today? "; "Did you meditate for 10 minutes today? ";
   "Did you review your week? "]%string.

(** The [for question in questions] loop of [cli()]: [completed] counts the
    answers equal to ["yes"]. *)
Definition count_completed (responses : list string) : Z :=
  fold_left (fun completed response =>
               if String.eqb response "yes" then completed + 1 else completed)
            responses 0.

(** The closing message of the score, by [completed]. *)
Definition encouragement (completed : Z) : string :=
  if completed <=? 3 then "Keep pushing forward! You can do this."
  else if completed <=? 6 then "Good job! Keep working on your habits."
  else if completed <=? 9 then "Great work! You're doing amazing."
  else "Perfect score! You nailed it!".

(** [(completed, total)] after the questions, where [answer q] is what
    [get_user_input(q, ["yes", "no"])] returned for question [q]. *)
Definition cli_score (answer : string -> string) : Z * Z :=
  (count_completed (map answer cli_questions), Z.of_nat (List.length cli_questions)).

(** ** Sample inputs *)

(** A habit created on 2023-07-01 and checked off once, that day at 09:00. *)
Definition sample_checked_habit : Habit :=
  checkoff (Habit_init "Exercise" 1 None (midnight 2023 7 1))
           (mkdate 2023 7 1) (mkdatetime 2023 7 1 9 0 0 0).

(** Adding a habit under a name already in use. *)
Definition overwrite_ops : list tracker_op :=
  [OpAdd "a" 1 (midnight 2023 7 1); OpAdd "a" 1 (midnight 2023 7 2)].

(** Re-adding a habit under its name with another periodicity. *)
Definition repurpose_ops : list tracker_op :=
  [OpAdd "a" 5 (midnight 2023 7 1); OpAdd "a" 1 (midnight 2023 7 2)].


(** Three habits on 2023-07-31: one last checked off 30 days before, one 31
    days before, one never. *)
Definition struggle_tracker : HabitTracker :=
  match run_ops HabitTracker_init
          [OpAdd "Read" 1 (midnight 2023 6 1); OpAdd "Walk" 1 (midnight 2023 6 1);
           OpAdd "Swim" 1 (midnight 2023 6 1);
           OpCheckoff "Read" (mkdate 2023 7 1) (mkdatetime 2023 7 1 8 0 0 0);
           OpCheckoff "Walk" (mkdate 2023 6 30) (mkdatetime 2023 6 30 8 0 0 0)] with
  | Some t => t
  | None => HabitTracker_init
  end.

(** ** Definitions used by the proofs *)

(** The specification's test for a struggling habit: no checkoff, or a last
    checkoff more than 30 days before [today]. *)
Definition struggling_spec (today : date) (hb : Habit) : bool :=
  match checkoffs hb with
  | [] => true
  | cs => date_diff_days today (dt_date (last cs dt0)) >? 30
  end.

(** The same date, [400 * k] years later: the Gregorian calendar repeats
    every 400 years. *)
Definition shift_years (k : Z) (d : date) : date :=
  mkdate (year d + 400 * k) (month d) (day d).

(** [a, a + 1, ..., a + n - 1] *)
Fixpoint zrange (a : Z) (n : nat) : list Z :=
  match n with
  | O => []
  | S n' => a :: zrange (a + 1) n'
  end.

(** The two halves of [fromordinal]: the month and the start of the month
    for day offset [n] of a year, and the date built from the quotients of
    the 400-, 100-, 4- and 1-year periods. *)
Definition month_part (leapyear : bool) (n : Z) : Z * Z :=
  let mo := Z.shiftr (n + 50) 5 in
  let preceding := DAYS_BEFORE_MONTH mo + (if (mo >? 2) && leapyear then 1 else 0) in
  if preceding >? n
  then (mo - 1, preceding - (DAYS_IN_MONTH (mo - 1)
                             + (if (mo - 1 =? 2) && leapyear then 1 else 0)))
  else (mo, preceding).

Definition ymd_of_parts (n400 n100 n4 n1 n : Z) : date :=
  let yr := n400 * 400 + 1 + n100 * 100 + n4 * 4 + n1 in
  if (n1 =? 4) || (n100 =? 4) then mkdate (yr - 1) 12 31 else
  let leapyear := (n1 =? 3) && (negb (n4 =? 24) || (n100 =? 3)) in
  let '(mo, preceding) := month_part leapyear n in
  mkdate yr mo (n - preceding + 1).

(** What [month_part] must give on day offset [n]: a month, a day within
    it, and the month's start. *)
Definition month_part_ok (b : bool) (n : Z) : bool :=
  let '(mo, pre) := month_part b n in
  (1 <=? mo) && (mo <=? 12) && (1 <=? n - pre + 1)
  && (n - pre + 1 <=? (if (mo =? 2) && b then 29 else DAYS_IN_MONTH mo))
  && (DAYS_BEFORE_MONTH mo + (if (mo >? 2) && b then 1 else 0) =? pre).

(** What the year part must give for [a] centuries, [c] 4-year periods and
    [e] years into a 400-year cycle: the leap-year test and the first day
    of the year, and the last day of a 4-year period that ends before the
    century does. *)
Definition year_parts_ok (a c e : Z) : bool :=
  let yr0 := 1 + a * 100 + c * 4 + e in
  Bool.eqb (is_leap yr0) ((e =? 3) && (negb (c =? 24) || (a =? 3)))
  && (days_before_year yr0 =? 36524 * a + 1461 * c + 365 * e)
  && ((c =? 24)
      || (toordinal (mkdate (a * 100 + c * 4 + 4) 12 31) =? 36524 * a + 1461 * c + 1461)).

(** Month and day in range for the year; unlike [valid_date], any year. *)
Definition calendar_ok (d : date) : bool :=
  (1 <=? month d) && (month d <=? 12)
  && (1 <=? day d) && (day d <=? days_in_month (year d) (month d)).

(** The well-formedness of the two indexes: keys are unique, each object sits
    in exactly one bucket, the bucket of its periodicity, the objects of the
    buckets are those of the name map, and identities are below [next_oid]. *)
Definition tracker_wf (t : HabitTracker) : Prop :=
  NoDup (map fst (habits t))
  /\ NoDup (map fst (habits_by_periodicity t))
  /\ NoDup (name_oids t)
  /\ NoDup (bucket_oids t)
  /\ (forall o, In o (bucket_oids t) <-> In o (name_oids t))
  /\ (forall p os o, In (p, os) (habits_by_periodicity t) -> In o os ->
        exists hb, heap t o = Some hb /\ periodicity hb = p)
  /\ (forall o, In o (name_oids t) -> (o < next_oid t)%nat).

(** The habits of a name map, in order, looked up in a heap. *)
Definition values_in (hp : oid -> option Habit) (hs : list (string * oid)) : list Habit :=
  flat_map (fun '(_, o) => match hp o with Some hb => [hb] | None => [] end) hs.

(** A habit as [from_dict(to_dict())] rebuilds it: the streak is not saved,
    and the last checkoff date is taken from the last checkoff. *)
Definition reloaded (h : Habit) : Habit :=
  mkHabit (name h) (periodicity h) (created_at h) (checkoffs h) 0
          (match checkoffs h with [] => None | cs => Some (dt_date (last cs dt0)) end).

(** Pairwise distinct elements, for an equality test [eqb]. *)
Fixpoint nodup_by {A : Type} (eqb : A -> A -> bool) (l : list A) : bool :=
  match l with
  | [] => true
  | x :: l' => negb (existsb (eqb x) l') && nodup_by eqb l'
  end.

(** [tracker_wf] as a test. *)
Definition tracker_wfb (t : HabitTracker) : bool :=
  nodup_by String.eqb (map fst (habits t))
  && nodup_by Z.eqb (map fst (habits_by_periodicity t))
  && nodup_by Nat.eqb (name_oids t)
  && nodup_by Nat.eqb (bucket_oids t)
  && forallb (fun o => existsb (Nat.eqb o) (name_oids t)) (bucket_oids t)
  && forallb (fun o => existsb (Nat.eqb o) (bucket_oids t)) (name_oids t)
  && forallb (fun '(p, os) =>
                forallb (fun o => match heap t o with
                                  | Some hb => periodicity hb =? p
                                  | None => false
                                  end) os)
             (habits_by_periodicity t)
  && forallb (fun o => Nat.ltb o (next_oid t)) (name_oids t).

(** The names added by the [add_habit] calls of a run. *)
Definition added_names (ops : list tracker_op) : list string :=
  flat_map (fun op => match op with OpAdd nm _ _ => [nm] | _ => [] end) ops.

(** The sum of a list. *)
Definition zsum (l : list Z) : Z := fold_right Z.add 0 l.

(** A habit whose timestamps are valid [datetime]s. *)
Definition habit_valid (h : Habit) : bool :=
  valid_datetime (created_at h) && forallb valid_datetime (checkoffs h).

(** The [(name, habit)] items of a tracker's name map. *)
Definition habit_items (t : HabitTracker) : list (string * Habit) :=
  flat_map (fun '(nm, o) => match heap t o with Some hb => [(nm, hb)] | None => [] end) (habits t).

(** A line [get_user_input] accepts. *)
Definition acceptable (py_lower : pystr -> pystr) (valid : list pystr) (line : pystr) : bool :=
  existsb (pystr_eqb (normalize_response py_lower line)) valid.

(** A run that adds three distinct names, deletes one, checks one off and
    deletes a name that is not there. *)
Definition fresh_ops : list tracker_op :=
  [OpAdd "Read"%string 1 (midnight 2023 7 1); OpAdd "Walk"%string 7 (midnight 2023 7 1);
   OpDelete "Read"%string; OpCheckoff "Walk"%string (mkdate 2023 7 2) (mkdatetime 2023 7 2 8 0 0 0);
   OpDelete "Swim"%string; OpAdd "Swim"%string 1 (midnight 2023 7 3)].

(** A file whose two entries carry the same periodicity. *)
Definition sample_file : list (string * HabitDict) :=
  [("Read"%string, mkHabitDict "Read"%string 1 "2023-06-01T00:00:00"%string ["2023-07-01T08:00:00"%string]);
   ("Walk"%string, mkHabitDict "Walk"%string 1 "2023-06-01T00:00:00"%string [])].

(** The tracker [sample_file] loads into. *)
Definition sample_loaded : HabitTracker :=
  match load_from_file_by fromisoformat HabitTracker_init (Some sample_file) (midnight 2023 7 2) with
  | Some t => t
  | None => HabitTracker_init
  end.

(** * Proofs *)

(** ** Lemmas on the calendar and the ISO format *)

Lemma char_digit_digit_char (d : Z) :
  0 <= d <= 9 -> char_digit (digit_char d) = Some d.
Proof.
  intros H.
  assert (d = 0 \/ d = 1 \/ d = 2 \/ d = 3 \/ d = 4 \/ d = 5 \/ d = 6 \/ d = 7
          \/ d = 8 \/ d = 9) as Hd by lia.
  repeat destruct Hd as [-> | Hd]; try reflexivity; subst; reflexivity.
Qed.

Lemma parse_show_fixed (k : nat) :
  forall n acc rest, 0 <= n < 10 ^ Z.of_nat k ->
  parse_fixed k acc (show_fixed k n ++ rest) = Some (acc * 10 ^ Z.of_nat k + n, rest).
Proof.
  induction k as [| k IH]; intros n acc rest Hn.
  - simpl in *. f_equal. f_equal. lia.
  - rewrite Nat2Z.inj_succ, Z.pow_succ_r in Hn by lia.
    set (p := 10 ^ Z.of_nat k) in *.
    assert (Hp : 0 < p) by (apply Z.pow_pos_nonneg; lia).
    assert (Hq : 0 <= n / p <= 9).
    { split; [apply Z.div_pos; lia |].
      assert (n / p < 10) by (apply Z.div_lt_upper_bound; lia). lia. }
    assert (Hr := Z.mod_pos_bound n p Hp).
    cbn [show_fixed parse_fixed app]. fold p.
    rewrite char_digit_digit_char by exact Hq.
    rewrite IH by exact Hr.
    rewrite Nat2Z.inj_succ, Z.pow_succ_r by lia. fold p.
    f_equal. f_equal.
    rewrite (Z.div_mod n p) at 3 by lia. ring.
Qed.

Ltac split_andb :=
  repeat match goal with
         | H : (_ && _)%bool = true |- _ => apply andb_prop in H; destruct H
         end.

Ltac norm_bool_hyps :=
  repeat match goal with
         | H : (_ =? _) = true |- _ => apply Z.eqb_eq in H
         | H : (_ <=? _) = true |- _ => apply Z.leb_le in H
         | H : Bool.eqb _ _ = true |- _ => apply Bool.eqb_prop in H
         end.

Lemma DAYS_IN_MONTH_le (m : Z) : DAYS_IN_MONTH m <= 31.
Proof.
  unfold DAYS_IN_MONTH.
  destruct (Z.to_nat m) as [|[|[|[|[|[|[|[|[|[|[|[|[|n]]]]]]]]]]]]];
    simpl; try lia; destruct n; simpl; lia.
Qed.

Lemma days_in_month_le (y m : Z) : days_in_month y m <= 31.
Proof.
  unfold days_in_month. destruct ((m =? 2) && is_leap y)%bool; [lia |].
  apply DAYS_IN_MONTH_le.
Qed.

Lemma valid_date_bounds (d : date) :
  valid_date d = true ->
  1 <= year d <= 9999 /\ 1 <= month d <= 12 /\ 1 <= day d <= days_in_month (year d) (month d).
Proof.
  unfold valid_date. intros H. split_andb.
  rewrite ?Z.leb_le in *. lia.
Qed.

Lemma valid_datetime_bounds (t : datetime) :
  valid_datetime t = true ->
  1 <= dt_year t <= 9999 /\ 1 <= dt_month t <= 12 /\ 1 <= dt_day t <= 31
  /\ 0 <= dt_hour t < 24 /\ 0 <= dt_minute t < 60 /\ 0 <= dt_second t < 60
  /\ 0 <= dt_microsecond t < 1000000.
Proof.
  unfold valid_datetime. intros H. split_andb.
  apply valid_date_bounds in H. simpl in H.
  pose proof (days_in_month_le (dt_year t) (dt_month t)).
  rewrite ?Z.leb_le, ?Z.ltb_lt in *. lia.
Qed.

Arguments show_fixed : simpl never.
Arguments parse_fixed : simpl never.

(** [fromisoformat] inverts [isoformat] on every valid timestamp. *)
Lemma fromisoformat_isoformat (t : datetime) :
  valid_datetime t = true -> fromisoformat (isoformat t) = Some t.
Proof.
  intros Hv. pose proof (valid_datetime_bounds t Hv) as Hb.
  destruct t as [y mo d h mi s us]; simpl in Hb.
  unfold fromisoformat, isoformat, isoformat_chars.
  rewrite list_ascii_of_string_of_list_ascii. cbn [dt_year dt_month dt_day dt_hour
    dt_minute dt_second dt_microsecond].
  rewrite parse_show_fixed by (simpl; lia). cbn.
  rewrite parse_show_fixed by (simpl; lia). cbn.
  rewrite parse_show_fixed by (simpl; lia). cbn.
  rewrite parse_show_fixed by (simpl; lia). cbn.
  rewrite parse_show_fixed by (simpl; lia). cbn.
  rewrite parse_show_fixed by (simpl; lia). cbn.
  destruct (us =? 0) eqn:E.
  - apply Z.eqb_eq in E. subst us. rewrite Hv. reflexivity.
  - rewrite <- (app_nil_r (show_fixed 6 us)).
    rewrite parse_show_fixed by (simpl; lia). cbn.
    rewrite Hv. reflexivity.
Qed.

(** ** Lemmas on [longest_streak] *)

Lemma fold_left_map_comm {A B C : Type} (f : A -> C -> A) (g : B -> C) :
  forall (l : list B) (acc : A),
  fold_left f (map g l) acc = fold_left (fun a x => f a (g x)) l acc.
Proof.
  induction l as [| x l IH]; intros acc; simpl; [reflexivity | apply IH].
Qed.

Lemma fold_left_ext_eq {A B : Type} (f g : A -> B -> A) :
  (forall a x, f a x = g a x) ->
  forall (l : list B) (acc : A), fold_left f l acc = fold_left g l acc.
Proof.
  intros Hfg l. induction l as [| x l IH]; intros acc; simpl; [reflexivity |].
  rewrite Hfg. apply IH.
Qed.

Definition pair_at (cs : list datetime) (i : nat) : datetime * datetime :=
  (nth (i - 1) cs dt0, nth i cs dt0).

Lemma longest_loop_body_pair (p : Z) (cs : list datetime) (st : list Z * Z) (i : nat) :
  longest_loop_body p cs st i = walk_step p st (pair_at cs i).
Proof. destruct st; reflexivity. Qed.

(** Indexing [checkoffs[i-1], checkoffs[i]] over [range(1, len)] visits the
    adjacent pairs in order. *)
Lemma pairs_of_range (t : list datetime) :
  forall a, map (pair_at (a :: t)) (seq 1 (List.length t)) = adj_pairs (a :: t).
Proof.
  induction t as [| b t IH]; intros a; [reflexivity |].
  cbn [List.length seq map]. rewrite <- seq_shift, map_map.
  change (adj_pairs (a :: b :: t)) with ((a, b) :: adj_pairs (b :: t)).
  f_equal. rewrite <- IH. apply map_ext_in.
  intros i Hi. apply in_seq in Hi. unfold pair_at.
  destruct i as [| i]; [lia |]. simpl. rewrite Nat.sub_0_r. reflexivity.
Qed.

Lemma longest_streak_as_walk (h : Habit) :
  longest_streak h = match checkoffs h with [] => 0 | _ => longest_streak_spec h end.
Proof.
  unfold longest_streak, longest_streak_spec, streak_walk.
  destruct (checkoffs h) as [| a t]; [reflexivity |].
  replace (List.length (a :: t) - 1)%nat with (List.length t) by (simpl; lia).
  rewrite (fold_left_ext_eq _ _ (longest_loop_body_pair (periodicity h) (a :: t))).
  rewrite <- (fold_left_map_comm (walk_step (periodicity h)) (pair_at (a :: t))).
  rewrite pairs_of_range. reflexivity.
Qed.

(** ** Claims on [Habit] *)

(** C3: [checkoff()] always succeeds. When a previous checkoff exists and
    [today - last_checkoff_date] exceeds the periodicity the streak restarts
    (it becomes 1); when the gap is at most the periodicity, or there is no
    previous checkoff, it grows by exactly 1. In every case the timestamp is
    appended and [last_checkoff_date] becomes [today]. *)
Theorem checkoff_spec (h : Habit) (today : date) (now : datetime) :
  let h' := checkoff h today now in
  checkoffs h' = checkoffs h ++ [now]
  /\ last_checkoff_date h' = Some today
  /\ name h' = name h /\ periodicity h' = periodicity h /\ created_at h' = created_at h
  /\ (forall l, last_checkoff_date h = Some l ->
        date_diff_days today l > periodicity h -> streak h' = 0 + 1)
  /\ (forall l, last_checkoff_date h = Some l ->
        date_diff_days today l <= periodicity h -> streak h' = streak h + 1)
  /\ (last_checkoff_date h = None -> streak h' = streak h + 1).
Proof.
  cbn zeta. unfold checkoff; simpl.
  repeat split; intros; subst; try reflexivity;
    match goal with H : last_checkoff_date h = _ |- _ => rewrite H end.
  - destruct (date_diff_days today l >? periodicity h) eqn:E; [reflexivity |].
    rewrite Z.gtb_ltb, Z.ltb_ge in E. lia.
  - destruct (date_diff_days today l >? periodicity h) eqn:E; [| reflexivity].
    rewrite Z.gtb_ltb, Z.ltb_lt in E. lia.
  - reflexivity.
Qed.

(** C5: [current_streak()] is the stored streak while the last checkoff is
    at most [periodicity] days before [today], and 0 otherwise (no checkoff,
    or a larger gap). It is a function of the habit: it changes nothing. *)
Theorem current_streak_spec (h : Habit) (today : date) :
  (forall l, last_checkoff_date h = Some l ->
     date_diff_days today l <= periodicity h -> current_streak h today = streak h)
  /\ (forall l, last_checkoff_date h = Some l ->
        date_diff_days today l > periodicity h -> current_streak h today = 0)
  /\ (last_checkoff_date h = None -> current_streak h today = 0).
Proof.
  unfold current_streak. repeat split; intros; subst;
    match goal with H : last_checkoff_date h = _ |- _ => rewrite H end.
  - rewrite (proj2 (Z.leb_le _ _)) by exact H0. reflexivity.
  - destruct (date_diff_days today l <=? periodicity h) eqn:E; [| reflexivity].
    apply Z.leb_le in E. lia.
  - reflexivity.
Qed.

(** C4: [longest_streak()] is 0 without checkoffs, 1 with a single one, and
    otherwise the longest run of the pairwise walk over the checkoffs by
    calendar date ([gap <= periodicity] extends the run, a larger gap closes
    it and restarts at 1, the last run is closed after the loop). On the
    ["Exercise"] sample (periodicity 1, 2023-07-01,02,03,05,06,07) it is 3. *)
Theorem longest_streak_spec_eq (h : Habit) :
  longest_streak h = match checkoffs h with
                     | [] => 0
                     | [_] => 1
                     | _ => longest_streak_spec h
                     end
  /\ longest_streak exercise_habit = 3.
Proof.
  split; [| reflexivity].
  rewrite longest_streak_as_walk.
  unfold longest_streak_spec, streak_walk.
  destruct (checkoffs h) as [| a [| b t]]; reflexivity.
Qed.

(** ** Serialization *)

Lemma parse_all_map_isoformat (l : list datetime) :
  forallb valid_datetime l = true -> parse_all (map isoformat l) = Some l.
Proof.
  induction l as [| t l IH]; intros H; [reflexivity |].
  simpl in H. apply andb_prop in H as [Ht Hl].
  simpl. rewrite fromisoformat_isoformat by exact Ht. rewrite IH by exact Hl.
  reflexivity.
Qed.

(** C1 (as the code does it): reloading a habit whose timestamps are valid
    [datetime] values keeps its name, periodicity, creation time and
    checkoffs, sets [last_checkoff_date] to the date of the last checkoff (or
    leaves it absent), resets [streak] to 0, and keeps [longest_streak()];
    the reloaded habit's [current_streak()] is 0 whatever the day. *)
Theorem reload_habit (h : Habit) (now : datetime) :
  valid_datetime (created_at h) = true ->
  forallb valid_datetime (checkoffs h) = true ->
  exists h', from_dict (to_dict h) now = Some h'
    /\ name h' = name h /\ periodicity h' = periodicity h
    /\ created_at h' = created_at h /\ checkoffs h' = checkoffs h
    /\ last_checkoff_date h' = match checkoffs h with
                               | [] => None
                               | cs => Some (dt_date (last cs dt0))
                               end
    /\ streak h' = 0
    /\ longest_streak h' = longest_streak h
    /\ (forall today, current_streak h' today = 0).
Proof.
  intros Hc Hcs.
  unfold from_dict, to_dict. cbn [d_name d_periodicity d_created_at d_checkoffs].
  rewrite fromisoformat_isoformat by exact Hc.
  rewrite parse_all_map_isoformat by exact Hcs.
  destruct (checkoffs h) as [| c cs] eqn:E; eexists; (split; [reflexivity |]);
    cbn; (split; [reflexivity |]); (split; [reflexivity |]); (split; [reflexivity |]);
    (split; [reflexivity |]); (split; [reflexivity |]); (split; [reflexivity |]).
  - split; [unfold longest_streak; rewrite E; reflexivity | reflexivity].
  - split; [unfold longest_streak; rewrite E; reflexivity |].
    intros today. unfold current_streak; simpl.
    destruct (_ <=? _); reflexivity.
Qed.

Lemma reload_habit_witness :
  exists h', from_dict (to_dict sample_checked_habit) (midnight 2023 7 2) = Some h'
    /\ name h' = name sample_checked_habit
    /\ periodicity h' = periodicity sample_checked_habit
    /\ created_at h' = created_at sample_checked_habit
    /\ checkoffs h' = checkoffs sample_checked_habit
    /\ last_checkoff_date h' = match checkoffs sample_checked_habit with
                               | [] => None
                               | cs => Some (dt_date (last cs dt0))
                               end
    /\ streak h' = 0
    /\ longest_streak h' = longest_streak sample_checked_habit
    /\ (forall today, current_streak h' today = 0).
Proof. apply (reload_habit sample_checked_habit (midnight 2023 7 2)); reflexivity. Defined.

(** C1 fails as stated: a habit checked off once on 2023-07-01 has a current
    streak of 1 that day, while the same habit saved and reloaded has 0. *)
Lemma reload_changes_current_streak :
  match from_dict (to_dict sample_checked_habit) (midnight 2023 7 2) with
  | Some h' => current_streak sample_checked_habit (mkdate 2023 7 1) = 1
               /\ current_streak h' (mkdate 2023 7 1) = 0
  | None => False
  end.
Proof. vm_compute. split; reflexivity. Qed.

(** ** Claims on [HabitTracker] *)

(** C8: [checkoff_habit(name)] never fails. For an unregistered name the
    tracker is returned unchanged and the only effect is the printed
    "does not exist" line; for a registered name the habit object is
    replaced by its [checkoff()] and nothing else changes. *)
Theorem checkoff_habit_spec (t : HabitTracker) (nm : string) (today : date)
  (now : datetime) :
  (dict_get String.eqb nm (habits t) = None ->
     checkoff_habit t nm today now = (t, [not_found_message nm]))
  /\ (forall o hb, dict_get String.eqb nm (habits t) = Some o -> heap t o = Some hb ->
        checkoff_habit t nm today now
        = (mkTracker (habits t) (habits_by_periodicity t)
                     (heap_upd (heap t) o (checkoff hb today now)) (next_oid t), [])).
Proof.
  unfold checkoff_habit. split.
  - intros H. rewrite H. reflexivity.
  - intros o hb Ho Hb. rewrite Ho, Hb. reflexivity.
Qed.

(** C10: looking up a periodicity that is not a key of
    [habits_by_periodicity] returns an empty bucket and inserts that empty
    bucket under the new key, last; the name map, the objects and the other
    buckets are left as they were. *)
Theorem get_habits_by_periodicity_inserts (t : HabitTracker) (p : Z) :
  dict_get Z.eqb p (habits_by_periodicity t) = None ->
  get_habits_by_periodicity t p
  = ([], mkTracker (habits t) (habits_by_periodicity t ++ [(p, [])]) (heap t) (next_oid t))
  /\ map fst (habits_by_periodicity (snd (get_habits_by_periodicity t p)))
     = map fst (habits_by_periodicity t) ++ [p].
Proof.
  intros H. unfold get_habits_by_periodicity, defaultdict_getitem. rewrite H.
  split; [reflexivity |]. simpl. rewrite map_app. reflexivity.
Qed.

Lemma get_habits_by_periodicity_inserts_witness :
  get_habits_by_periodicity HabitTracker_init 99
  = ([], mkTracker (habits HabitTracker_init)
                   (habits_by_periodicity HabitTracker_init ++ [(99, [])])
                   (heap HabitTracker_init) (next_oid HabitTracker_init))
  /\ map fst (habits_by_periodicity (snd (get_habits_by_periodicity HabitTracker_init 99)))
     = map fst (habits_by_periodicity HabitTracker_init) ++ [99].
Proof. apply get_habits_by_periodicity_inserts. reflexivity. Defined.

(** C2 is broken by [add_habit] on a name in use: after adding ["a"] twice
    with periodicity 1, the name map holds only the second object (id 1)
    while bucket 1 still holds the first one (id 0) as well. *)
Theorem add_habit_overwrite_orphans :
  match run_ops HabitTracker_init overwrite_ops with
  | Some t => habits t = [("a"%string, 1%nat)]
              /\ habits_by_periodicity t = [(1, [0%nat; 1%nat])]
              /\ index_invariant t = false
  | None => False
  end.
Proof. vm_compute. repeat split. Qed.

(** C9 on the same defect: after adding ["a"] with periodicity 5 and then
    again with periodicity 1, no habit of the name map has periodicity 5,
    yet [get_habits_by_periodicity(5)] returns the stale first object. *)
Theorem get_habits_by_periodicity_stale :
  match run_ops HabitTracker_init repurpose_ops with
  | Some t => forallb (fun hb => negb (periodicity hb =? 5)) (habit_values t) = true
              /\ fst (get_habits_by_periodicity t 5) = [0%nat]
              /\ heap t 0%nat = Some (Habit_init "a" 5 None (midnight 2023 7 1))
  | None => False
  end.
Proof. vm_compute. repeat split. Qed.

(** ** The streak field and the pairwise walk *)


Lemma fold_max_ge (t : list Z) :
  forall a, a <= fold_left Z.max t a /\ (forall x, In x t -> x <= fold_left Z.max t a).
Proof.
  induction t as [| y t IH]; intros a; simpl; [split; [lia | tauto] |].
  destruct (IH (Z.max a y)) as [H1 H2]. split; [lia |].
  intros x [<- | Hx]; [lia | auto].
Qed.

Lemma py_max_ge (l : list Z) (x : Z) : In x l -> x <= py_max l.
Proof.
  destruct l as [| a t]; [intros [] |]. simpl.
  destruct (fold_max_ge t a) as [H1 H2]. intros [<- | Hx]; [lia | auto].
Qed.









(** ** The calendar: 400-year periodicity *)

Lemma is_leap_shift (y k : Z) : is_leap (y + 400 * k) = is_leap y.
Proof.
  unfold is_leap.
  replace (y + 400 * k) with (y + (100 * k) * 4) by ring. rewrite Z_mod_plus_full.
  replace (y + (100 * k) * 4) with (y + (4 * k) * 100) by ring. rewrite Z_mod_plus_full.
  replace (y + (4 * k) * 100) with (y + k * 400) by ring. rewrite Z_mod_plus_full.
  reflexivity.
Qed.

Lemma days_before_year_shift (y k : Z) :
  days_before_year (y + 400 * k) = days_before_year y + DI400Y * k.
Proof.
  unfold days_before_year, DI400Y.
  replace (y + 400 * k - 1) with ((y - 1) + k * 400) by ring.
  rewrite (Z.div_add (y - 1) k 400) by lia.
  replace ((y - 1) + k * 400) with ((y - 1) + (4 * k) * 100) by ring.
  rewrite (Z.div_add (y - 1) (4 * k) 100) by lia.
  replace ((y - 1) + (4 * k) * 100) with ((y - 1) + (100 * k) * 4) by ring.
  rewrite (Z.div_add (y - 1) (100 * k) 4) by lia.
  ring.
Qed.

Lemma toordinal_shift (k : Z) (d : date) :
  toordinal (shift_years k d) = toordinal d + DI400Y * k.
Proof.
  unfold toordinal, shift_years, days_before_month; cbn [year month day].
  rewrite days_before_year_shift, is_leap_shift. ring.
Qed.

Lemma fromordinal_shift (k n : Z) :
  fromordinal (n + DI400Y * k) = shift_years k (fromordinal n).
Proof.
  unfold fromordinal.
  replace (n + DI400Y * k - 1) with ((n - 1) + k * DI400Y) by ring.
  rewrite Z.div_add, Z_mod_plus_full by (unfold DI400Y; lia).
  cbv zeta.
  match goal with |- context [if ?c then mkdate _ 12 31 else _] => destruct c end.
  - unfold shift_years; cbn [year month day]; f_equal; ring.
  - match goal with |- context [match ?e with pair _ _ => _ end] => destruct e as [mo pre] end.
    unfold shift_years; cbn [year month day]; f_equal; ring.
Qed.

Lemma date_lt_spec (a b : date) :
  date_lt a b = true <->
  (year a < year b \/ (year a = year b /\ (month a < month b
                                           \/ (month a = month b /\ day a < day b)))).
Proof.
  unfold date_lt.
  rewrite !orb_true_iff, !andb_true_iff, !orb_true_iff, !andb_true_iff.
  rewrite !Z.ltb_lt, !Z.eqb_eq. reflexivity.
Qed.

Lemma date_lt_shift (k : Z) (a b : date) :
  date_lt (shift_years k a) (shift_years k b) = date_lt a b.
Proof.
  apply eq_true_iff_eq. rewrite !date_lt_spec. unfold shift_years; simpl. lia.
Qed.

Lemma date_lt_trans (a b c : date) :
  date_lt a b = true -> date_lt b c = true -> date_lt a c = true.
Proof. rewrite !date_lt_spec. lia. Qed.

Lemma date_lt_asym (a b : date) : date_lt a b = true -> date_lt b a = false.
Proof.
  intros H. apply not_true_is_false. intros H'.
  apply date_lt_spec in H. apply date_lt_spec in H'. lia.
Qed.

Lemma date_lt_irrefl (a : date) : date_lt a a = false.
Proof. apply not_true_is_false. rewrite date_lt_spec. lia. Qed.

Lemma in_zrange_nat (x a : Z) (n : nat) : a <= x < a + Z.of_nat n -> In x (zrange a n).
Proof.
  revert a. induction n as [| n IH]; intros a H; [lia |].
  simpl. destruct (Z.eq_dec a x) as [-> | Hne]; [left; reflexivity |].
  right. apply IH. lia.
Qed.

Lemma in_zrange (x a n : Z) : a <= x < a + n -> In x (zrange a (Z.to_nat n)).
Proof. intros H. apply in_zrange_nat. lia. Qed.

(** By evaluation: the day-of-year part of [fromordinal] on every day
    offset of a common and of a leap year, and the year part on every
    position within a 400-year cycle. *)
Lemma month_part_check :
  forallb (fun b => forallb (month_part_ok b) (zrange 0 (Z.to_nat 365))) [true; false] = true.
Proof. vm_compute. reflexivity. Qed.

Lemma year_parts_check :
  forallb (fun a => forallb (fun c => forallb (year_parts_ok a c) (zrange 0 (Z.to_nat 4)))
                            (zrange 0 (Z.to_nat 25)))
          (zrange 0 (Z.to_nat 4)) = true.
Proof. vm_compute. reflexivity. Qed.

(** The length of each year of one 400-year cycle, by evaluation. *)
Lemma cycle_year_length :
  forallb (fun y => days_before_year (y + 1)
                    =? days_before_year y + 365 + (if is_leap y then 1 else 0))
          (zrange 0 (Z.to_nat 400)) = true.
Proof. vm_compute. reflexivity. Qed.

Lemma days_in_month_shift (k y m : Z) : days_in_month (y + 400 * k) m = days_in_month y m.
Proof. unfold days_in_month. rewrite is_leap_shift. reflexivity. Qed.

Lemma calendar_ok_shift (k : Z) (d : date) : calendar_ok (shift_years k d) = calendar_ok d.
Proof. unfold calendar_ok, shift_years; cbn [year month day]. rewrite days_in_month_shift. reflexivity. Qed.

Lemma fromordinal_parts (n0 : Z) :
  fromordinal n0 =
  ymd_of_parts ((n0 - 1) / DI400Y) (((n0 - 1) mod DI400Y) / DI100Y)
               ((((n0 - 1) mod DI400Y) mod DI100Y) / DI4Y)
               (((((n0 - 1) mod DI400Y) mod DI100Y) mod DI4Y) / 365)
               (((((n0 - 1) mod DI400Y) mod DI100Y) mod DI4Y) mod 365).
Proof. reflexivity. Qed.

Lemma fromordinal_ok (n0 : Z) :
  calendar_ok (fromordinal n0) = true /\ toordinal (fromordinal n0) = n0.
Proof.
  rewrite fromordinal_parts. unfold DI400Y, DI100Y, DI4Y.
  set (n := n0 - 1).
  assert (Hn : n0 = n + 1) by (unfold n; ring).
  set (q1 := n / 146097). set (r1 := n mod 146097).
  set (q2 := r1 / 36524). set (r2 := r1 mod 36524).
  set (q3 := r2 / 1461). set (r3 := r2 mod 1461).
  set (q4 := r3 / 365). set (r4 := r3 mod 365).
  assert (H1 : n = 146097 * q1 + r1 /\ 0 <= r1 < 146097)
    by (unfold q1, r1; split; [apply Z.div_mod | apply Z.mod_pos_bound]; lia).
  assert (H2 : r1 = 36524 * q2 + r2 /\ 0 <= r2 < 36524)
    by (unfold q2, r2; split; [apply Z.div_mod | apply Z.mod_pos_bound]; lia).
  assert (H3 : r2 = 1461 * q3 + r3 /\ 0 <= r3 < 1461)
    by (unfold q3, r3; split; [apply Z.div_mod | apply Z.mod_pos_bound]; lia).
  assert (H4 : r3 = 365 * q4 + r4 /\ 0 <= r4 < 365)
    by (unfold q4, r4; split; [apply Z.div_mod | apply Z.mod_pos_bound]; lia).
  clearbody n q1 r1 q2 r2 q3 r3 q4 r4.
  assert (Hq2 : 0 <= q2 <= 4) by lia.
  assert (Hq3 : 0 <= q3 <= 24) by lia.
  assert (Hq4 : 0 <= q4 <= 4) by lia.
  unfold ymd_of_parts.
  destruct ((q4 =? 4) || (q2 =? 4)) eqn:E.
  - replace (q1 * 400 + 1 + q2 * 100 + q3 * 4 + q4 - 1)
      with (q2 * 100 + q3 * 4 + q4 + 400 * q1) by ring.
    change (mkdate (q2 * 100 + q3 * 4 + q4 + 400 * q1) 12 31)
      with (shift_years q1 (mkdate (q2 * 100 + q3 * 4 + q4) 12 31)).
    rewrite calendar_ok_shift, toordinal_shift. split; [reflexivity |].
    unfold DI400Y.
    apply orb_true_iff in E. rewrite !Z.eqb_eq in E. destruct E as [E | E].
    + assert (Hq2' : q2 <= 3) by lia.
      assert (Hr4 : r4 = 0) by lia.
      pose proof (proj1 (forallb_forall _ _) year_parts_check q2
                    (in_zrange q2 0 4 ltac:(lia))) as Y.
      pose proof (proj1 (forallb_forall _ _) Y q3 (in_zrange q3 0 25 ltac:(lia))) as Y'.
      pose proof (proj1 (forallb_forall _ _) Y' 0 (in_zrange 0 0 4 ltac:(lia))) as Y''.
      unfold year_parts_ok in Y''. split_andb.
      match goal with H : (_ || _) = true |- _ => apply orb_true_iff in H; destruct H end;
        norm_bool_hyps; [lia |].
      rewrite E. lia.
    + assert (q3 = 0 /\ q4 = 0) as [-> ->] by lia. rewrite E.
      change (toordinal (mkdate (4 * 100 + 0 * 4 + 0) 12 31)) with 146097. lia.
  - apply orb_false_iff in E. rewrite !Z.eqb_neq in E.
    set (lp := (q4 =? 3) && (negb (q3 =? 24) || (q2 =? 3))).
    destruct (month_part lp r4) as [mo pre] eqn:M.
    assert (Hm : month_part_ok lp r4 = true).
    { assert (Hb : In lp [true; false]) by (destruct lp; simpl; auto).
      exact (proj1 (forallb_forall _ _)
               (proj1 (forallb_forall _ _) month_part_check lp Hb) r4
               (in_zrange r4 0 365 ltac:(lia))). }
    unfold month_part_ok in Hm. rewrite M in Hm. split_andb. norm_bool_hyps.
    pose proof (proj1 (forallb_forall _ _) year_parts_check q2
                  (in_zrange q2 0 4 ltac:(lia))) as Y.
    pose proof (proj1 (forallb_forall _ _) Y q3 (in_zrange q3 0 25 ltac:(lia))) as Y'.
    pose proof (proj1 (forallb_forall _ _) Y' q4 (in_zrange q4 0 4 ltac:(lia))) as Y''.
    unfold year_parts_ok in Y''. split_andb. norm_bool_hyps.
    replace (q1 * 400 + 1 + q2 * 100 + q3 * 4 + q4)
      with ((1 + q2 * 100 + q3 * 4 + q4) + 400 * q1) by ring.
    change (mkdate (1 + q2 * 100 + q3 * 4 + q4 + 400 * q1) mo (r4 - pre + 1))
      with (shift_years q1 (mkdate (1 + q2 * 100 + q3 * 4 + q4) mo (r4 - pre + 1))).
    rewrite calendar_ok_shift, toordinal_shift.
    unfold calendar_ok, toordinal, days_in_month, days_before_month; cbn [year month day].
    match goal with H : is_leap _ = _ |- _ => rewrite H end. fold lp.
    unfold DI400Y. split; [rewrite !andb_true_iff, !Z.leb_le; lia | lia].
Qed.

Lemma days_before_year_succ (y : Z) :
  days_before_year (y + 1) = days_before_year y + 365 + (if is_leap y then 1 else 0).
Proof.
  set (k := y / 400). set (r := y mod 400).
  assert (Hr : 0 <= r < 400) by (apply Z.mod_pos_bound; lia).
  assert (Hy : y = r + 400 * k) by (subst r k; pose proof (Z.div_mod y 400); lia).
  rewrite Hy. replace (r + 400 * k + 1) with ((r + 1) + 400 * k) by ring.
  rewrite !days_before_year_shift, is_leap_shift.
  pose proof (proj1 (forallb_forall _ _) cycle_year_length r (in_zrange r 0 400 ltac:(lia)))
    as H.
  apply Z.eqb_eq in H. lia.
Qed.

Lemma days_before_year_lt (y y' : Z) :
  y < y' -> days_before_year y + 365 + (if is_leap y then 1 else 0) <= days_before_year y'.
Proof.
  intros H. replace y' with (y + 1 + Z.of_nat (Z.to_nat (y' - y - 1))) by lia.
  generalize (Z.to_nat (y' - y - 1)) as j. intros j.
  induction j as [| j IH].
  - replace (y + 1 + Z.of_nat 0) with (y + 1) by lia.
    rewrite days_before_year_succ. lia.
  - rewrite Nat2Z.inj_succ. replace (y + 1 + Z.succ (Z.of_nat j))
      with ((y + 1 + Z.of_nat j) + 1) by ring.
    rewrite days_before_year_succ. destruct (is_leap (y + 1 + Z.of_nat j)); lia.
Qed.

Ltac month_cases m :=
  let H := fresh in
  assert (H : m = 1 \/ m = 2 \/ m = 3 \/ m = 4 \/ m = 5 \/ m = 6 \/ m = 7 \/ m = 8
              \/ m = 9 \/ m = 10 \/ m = 11 \/ m = 12) by lia;
  repeat destruct H as [-> | H]; try subst m.

Lemma month_in_year (y m : Z) :
  1 <= m <= 12 ->
  0 <= days_before_month y m
  /\ days_before_month y m + days_in_month y m <= 365 + (if is_leap y then 1 else 0).
Proof.
  intros Hm. unfold days_before_month, days_in_month, DAYS_BEFORE_MONTH, DAYS_IN_MONTH.
  destruct (is_leap y); month_cases m; simpl; lia.
Qed.

Lemma month_lt (y ma mb : Z) :
  1 <= ma -> ma < mb -> mb <= 12 ->
  days_before_month y ma + days_in_month y ma <= days_before_month y mb.
Proof.
  intros H1 H2 H3. unfold days_before_month, days_in_month, DAYS_BEFORE_MONTH, DAYS_IN_MONTH.
  destruct (is_leap y); month_cases ma; month_cases mb; simpl; lia.
Qed.

Lemma calendar_ok_bounds (d : date) :
  calendar_ok d = true ->
  1 <= month d <= 12 /\ 1 <= day d <= days_in_month (year d) (month d).
Proof. unfold calendar_ok. intros H. split_andb. rewrite ?Z.leb_le in *. lia. Qed.

(** [toordinal] is strictly increasing for the tuple order of dates. *)
Lemma toordinal_mono (a b : date) :
  calendar_ok a = true -> calendar_ok b = true -> date_lt a b = true ->
  toordinal a < toordinal b.
Proof.
  intros Ha Hb Hlt. apply calendar_ok_bounds in Ha, Hb. apply date_lt_spec in Hlt.
  unfold toordinal.
  destruct (month_in_year (year a) (month a) ltac:(lia)) as [Ha0 Ha1].
  destruct (month_in_year (year b) (month b) ltac:(lia)) as [Hb0 Hb1].
  destruct Hlt as [Hy | [Hy [Hm | [Hm Hd]]]].
  - pose proof (days_before_year_lt _ _ Hy). lia.
  - rewrite Hy in *. pose proof (month_lt (year b) (month a) (month b) ltac:(lia) Hm ltac:(lia)).
    lia.
  - rewrite Hy, Hm in *. lia.
Qed.

Lemma date_lt_toordinal (a b : date) :
  calendar_ok a = true -> calendar_ok b = true ->
  date_lt a b = (toordinal a <? toordinal b).
Proof.
  intros Ha Hb. destruct (date_lt a b) eqn:E.
  - symmetry. apply Z.ltb_lt, toordinal_mono; assumption.
  - symmetry. apply Z.ltb_ge. destruct (date_lt b a) eqn:E'.
    + pose proof (toordinal_mono b a Hb Ha E'). lia.
    + apply not_true_iff_false in E, E'. rewrite date_lt_spec in E, E'.
      unfold toordinal.
      assert (year a = year b /\ month a = month b /\ day a = day b) as [-> [-> ->]] by lia.
      lia.
Qed.

Lemma valid_date_calendar_ok (d : date) : valid_date d = true -> calendar_ok d = true.
Proof. unfold valid_date, calendar_ok. intros H. split_andb. rewrite !andb_true_iff. tauto. Qed.

Lemma valid_date_toordinal_max (d : date) :
  valid_date d = true -> toordinal d <= MAXORDINAL.
Proof.
  intros Hv. pose proof (valid_date_bounds d Hv) as Hb.
  assert (Hm : date_lt (mkdate 9999 12 31) d = false).
  { apply not_true_iff_false. rewrite date_lt_spec. simpl.
    pose proof (days_in_month_le (year d) (month d)). lia. }
  rewrite date_lt_toordinal in Hm by (reflexivity || apply valid_date_calendar_ok, Hv).
  apply Z.ltb_ge in Hm. exact Hm.
Qed.

Lemma last_in {A : Type} (l : list A) (d : A) : l <> [] -> In (last l d) l.
Proof.
  induction l as [| a l IH]; intros H; [congruence |].
  destruct l as [| b l]; [left; reflexivity |].
  right. apply IH. discriminate.
Qed.

(** C7: on a real day ([today] a valid date at least 31 days after
    0001-01-01) and with valid checkoff timestamps,
    [habits_struggled_last_month()] returns, in the order of the name map,
    the names of the habits with no checkoff or whose last checkoff is more
    than 30 days before [today]; a last checkoff exactly 30 days before is
    excluded and one 31 days before is included. *)
Theorem habits_struggled_spec (t : HabitTracker) (today : date) :
  valid_date today = true -> 31 <= toordinal today ->
  forallb (fun hb => forallb valid_datetime (checkoffs hb)) (habit_values t) = true ->
  habits_struggled_last_month t today
  = Some (map name (filter (struggling_spec today) (habit_values t)))
  /\ (forall hb, checkoffs hb <> [] ->
        date_diff_days today (dt_date (last (checkoffs hb) dt0)) = 30 ->
        struggling_spec today hb = false)
  /\ (forall hb, checkoffs hb <> [] ->
        date_diff_days today (dt_date (last (checkoffs hb) dt0)) = 31 ->
        struggling_spec today hb = true).
Proof.
  intros Hv H31 Hcs.
  pose proof (valid_date_toordinal_max today Hv) as Hmax.
  split; [| split]; [| intros hb Hne Hd; unfold struggling_spec;
                       destruct (checkoffs hb); [congruence |]; rewrite Hd; reflexivity ..].
  unfold habits_struggled_last_month, date_sub_days.
  rewrite (proj2 (Z.ltb_lt 0 _)), (proj2 (Z.leb_le _ MAXORDINAL)) by lia. simpl.
  f_equal. f_equal. apply filter_ext_in. intros hb Hin.
  pose proof (proj1 (forallb_forall _ _) Hcs hb Hin) as Hhb. simpl in Hhb.
  unfold struggled, struggling_spec.
  destruct (checkoffs hb) as [| c cs] eqn:E; [reflexivity |].
  assert (Hl : valid_datetime (last (c :: cs) dt0) = true).
  { apply (proj1 (forallb_forall _ _) Hhb). apply last_in. discriminate. }
  unfold valid_datetime in Hl. split_andb.
  destruct (fromordinal_ok (toordinal today - 30)) as [Hok Hord].
  rewrite date_lt_toordinal by (assumption || apply valid_date_calendar_ok; assumption).
  rewrite Hord. unfold date_diff_days. rewrite Z.gtb_ltb.
  destruct (Z.ltb_spec (toordinal (dt_date (last (c :: cs) dt0))) (toordinal today - 30));
  destruct (Z.ltb_spec 30 (toordinal today - toordinal (dt_date (last (c :: cs) dt0))));
  reflexivity || lia.
Qed.

Lemma habits_struggled_spec_witness :
  habits_struggled_last_month struggle_tracker (mkdate 2023 7 31)
  = Some (map name (filter (struggling_spec (mkdate 2023 7 31)) (habit_values struggle_tracker)))
  /\ (forall hb, checkoffs hb <> [] ->
        date_diff_days (mkdate 2023 7 31) (dt_date (last (checkoffs hb) dt0)) = 30 ->
        struggling_spec (mkdate 2023 7 31) hb = false)
  /\ (forall hb, checkoffs hb <> [] ->
        date_diff_days (mkdate 2023 7 31) (dt_date (last (checkoffs hb) dt0)) = 31 ->
        struggling_spec (mkdate 2023 7 31) hb = true).
Proof.
  apply habits_struggled_spec;
    [vm_compute; reflexivity | apply Z.leb_le; vm_compute; reflexivity
    | vm_compute; reflexivity].
Defined.

Example struggle_tracker_result :
  habits_struggled_last_month struggle_tracker (mkdate 2023 7 31) = Some ["Walk"; "Swim"]%string.
Proof. vm_compute. reflexivity. Qed.

(** ** Lemmas on dictionaries and on the two indexes *)

Section DictLemmas.
Context {K V : Type} (eqk : K -> K -> bool).
Hypothesis eqk_spec : forall a b, eqk a b = true <-> a = b.

Lemma eqk_false (a b : K) : a <> b -> eqk a b = false.
Proof. intros H. apply not_true_is_false. rewrite eqk_spec. exact H. Qed.

Lemma eqk_refl (a : K) : eqk a a = true.
Proof. apply eqk_spec. reflexivity. Qed.

Lemma dict_get_None (k : K) (d : list (K * V)) :
  dict_get eqk k d = None <-> ~ In k (map fst d).
Proof.
  induction d as [| [k' v'] d IH]; simpl; [tauto |].
  destruct (eqk k k') eqn:E.
  - apply eqk_spec in E. subst. split; [discriminate | tauto].
  - rewrite IH. assert (k' <> k) by (intros <-; rewrite eqk_refl in E; discriminate).
    tauto.
Qed.

Lemma dict_get_split (k : K) (w v : V) (d : list (K * V)) :
  dict_get eqk k d = Some w ->
  exists pre post, d = pre ++ (k, w) :: post /\ ~ In k (map fst pre)
    /\ dict_set eqk k v d = pre ++ (k, v) :: post
    /\ dict_del eqk k d = pre ++ post.
Proof.
  induction d as [| [k' v'] d IH]; simpl; [discriminate |].
  destruct (eqk k k') eqn:E.
  - apply eqk_spec in E. subst. intros [= ->].
    exists [], d. simpl. auto.
  - intros H. destruct (IH H) as (pre & post & -> & Hn & Hs & Hd).
    exists ((k', v') :: pre), post. simpl. rewrite Hs, Hd.
    repeat split; try reflexivity.
    intros [-> | Hin]; [rewrite eqk_refl in E; discriminate | tauto].
Qed.

Lemma dict_set_absent (k : K) (v : V) (d : list (K * V)) :
  ~ In k (map fst d) -> dict_set eqk k v d = d ++ [(k, v)].
Proof.
  induction d as [| [k' v'] d IH]; simpl; [reflexivity |].
  intros Hn. rewrite eqk_false by (intros ->; tauto). rewrite IH by tauto. reflexivity.
Qed.

Lemma dict_get_In (k : K) (v : V) (d : list (K * V)) :
  NoDup (map fst d) -> In (k, v) d -> dict_get eqk k d = Some v.
Proof.
  induction d as [| [k' v'] d IH]; simpl; [tauto |].
  intros Hnd Hin. inversion Hnd as [| ? ? Hn Hnd']; subst.
  destruct Hin as [[= -> ->] | Hin].
  - rewrite eqk_refl. reflexivity.
  - rewrite eqk_false by (intros ->; apply Hn, (in_map fst _ (k', v)), Hin).
    auto.
Qed.

Lemma dict_get_Some_In (k : K) (v : V) (d : list (K * V)) :
  dict_get eqk k d = Some v -> In (k, v) d.
Proof.
  intros H. destruct (dict_get_split k v v d H) as (pre & post & -> & _).
  apply in_or_app. right. left. reflexivity.
Qed.

End DictLemmas.

Lemma Z_eqb_spec' (a b : Z) : Z.eqb a b = true <-> a = b.
Proof. apply Z.eqb_eq. Qed.

Lemma String_eqb_spec' (a b : string) : String.eqb a b = true <-> a = b.
Proof. apply String.eqb_eq. Qed.

Lemma flat_map_app {A B : Type} (f : A -> list B) (l l' : list A) :
  flat_map f (l ++ l') = flat_map f l ++ flat_map f l'.
Proof. induction l as [| a l IH]; simpl; [reflexivity |]. rewrite IH, app_assoc. reflexivity. Qed.

Lemma in_flat_map_snd {A B : Type} (x : B) (l : list (A * list B)) :
  In x (flat_map snd l) <-> exists a os, In (a, os) l /\ In x os.
Proof.
  rewrite in_flat_map. split.
  - intros ([a os] & H1 & H2). eauto.
  - intros (a & os & H1 & H2). exists (a, os). auto.
Qed.

Lemma bucket_append_spec (p : Z) (o : oid) (hbp : list (Z * list oid)) :
  NoDup (map fst hbp) ->
  NoDup (map fst (bucket_append p o hbp))
  /\ Permutation (flat_map snd (bucket_append p o hbp)) (flat_map snd hbp ++ [o])
  /\ (forall p' os' x, In (p', os') (bucket_append p o hbp) -> In x os' ->
        (x = o /\ p' = p) \/ exists os, In (p', os) hbp /\ In x os).
Proof.
  intros Hnd. unfold bucket_append, defaultdict_getitem.
  destruct (dict_get Z.eqb p hbp) as [os |] eqn:E.
  - destruct (dict_get_split Z.eqb Z_eqb_spec' p os (os ++ [o]) hbp E)
      as (pre & post & -> & Hn & -> & _).
    rewrite !map_app in *. simpl in *. split; [exact Hnd |]. split.
    + rewrite !flat_map_app. simpl. rewrite <- !app_assoc.
      apply Permutation_app_head. rewrite app_assoc.
      apply Permutation_trans with (os ++ (flat_map snd post ++ [o])).
      * rewrite <- app_assoc. apply Permutation_app_head. apply Permutation_app_comm.
      * rewrite app_assoc. apply Permutation_refl.
    + intros p' os' x Hin Hx. apply in_app_or in Hin. destruct Hin as [Hin | [[= <- <-] | Hin]].
      * right. exists os'. split; [apply in_or_app; left |]; assumption.
      * apply in_app_or in Hx. destruct Hx as [Hx | [<- | []]].
        -- right. exists os. split; [apply in_or_app; right; left; reflexivity | assumption].
        -- left. auto.
      * right. exists os'. split; [apply in_or_app; right; right |]; assumption.
  - apply dict_get_None in E; [| exact Z_eqb_spec'].
    cbv beta iota. change (@nil oid ++ [o]) with [o].
    assert (Hs : dict_set Z.eqb p [o] (hbp ++ [(p, [])]) = hbp ++ [(p, [o])]).
    { clear Hnd. induction hbp as [| [k v] hbp IH]; simpl.
      - rewrite Z.eqb_refl. reflexivity.
      - simpl in E. rewrite (proj2 (Z.eqb_neq p k)) by (intros ->; tauto).
        rewrite IH by tauto. reflexivity. }
    rewrite Hs. rewrite map_app. simpl. split.
    + apply NoDup_app; [exact Hnd | constructor; [tauto | constructor] |].
      intros a Ha [<- | []]. tauto.
    + split.
      * rewrite flat_map_app. simpl. apply Permutation_refl.
      * intros p' os' x Hin Hx. apply in_app_or in Hin.
        destruct Hin as [Hin | [[= <- <-] | []]].
        -- right. eauto.
        -- destruct Hx as [<- | []]. left. auto.
Qed.

Lemma add_habit_eq (t : HabitTracker) (nm : string) (p : Z) (now : datetime) :
  add_habit t nm p now =
  mkTracker (dict_set String.eqb nm (next_oid t) (habits t))
            (bucket_append p (next_oid t) (habits_by_periodicity t))
            (heap_upd (heap t) (next_oid t) (Habit_init nm p None now)) (S (next_oid t)).
Proof.
  unfold add_habit, bucket_append.
  destruct (defaultdict_getitem Z.eqb p (habits_by_periodicity t)). reflexivity.
Qed.

Lemma in_remove_nodup {A : Type} (x o : A) (l r : list A) :
  NoDup (l ++ o :: r) -> (In x (l ++ r) <-> In x (l ++ o :: r) /\ x <> o).
Proof.
  intros Hnd. pose proof (NoDup_remove_2 _ _ _ Hnd) as Hn.
  rewrite !in_app_iff. simpl. split.
  - intros H. split; [tauto |]. intros ->. apply Hn, in_app_iff. exact H.
  - intros [[H | [H | H]] Hne]; [tauto | congruence | tauto].
Qed.

Lemma list_remove_split (o : oid) (os : list oid) :
  In o os -> exists a b, os = a ++ o :: b /\ list_remove o os = Some (a ++ b).
Proof.
  induction os as [| y os IH]; simpl; [tauto |].
  destruct (Nat.eqb o y) eqn:E.
  - apply Nat.eqb_eq in E. subst. intros _. exists [], os. auto.
  - intros [-> | Hin]; [rewrite Nat.eqb_refl in E; discriminate |].
    destruct (IH Hin) as (a & b & -> & ->). exists (y :: a), b. auto.
Qed.

Lemma nodupb_NoDup (l : list oid) : nodupb l = true <-> NoDup l.
Proof.
  induction l as [| x l IH]; simpl.
  - split; [constructor | reflexivity].
  - rewrite andb_true_iff, negb_true_iff, IH. split.
    + intros [Hx Hl]. constructor; [| exact Hl]. intros Hin.
      assert (existsb (Nat.eqb x) l = true) as Hc
        by (apply existsb_exists; exists x; rewrite Nat.eqb_refl; auto).
      congruence.
    + intros Hnd. inversion Hnd as [| ? ? Hn Hl]; subst. split; [| exact Hl].
      apply not_true_is_false. intros Hc. apply existsb_exists in Hc as (y & Hy & Hxy).
      apply Nat.eqb_eq in Hxy. subst. tauto.
Qed.

Lemma existsb_eqb_In (x : oid) (l : list oid) : existsb (Nat.eqb x) l = true <-> In x l.
Proof.
  rewrite existsb_exists. split.
  - intros (y & Hy & E). apply Nat.eqb_eq in E. subst. exact Hy.
  - intros H. exists x. rewrite Nat.eqb_refl. auto.
Qed.

Lemma wf_index_invariant (t : HabitTracker) : tracker_wf t -> index_invariant t = true.
Proof.
  intros (_ & _ & _ & H4 & H5 & _).
  unfold index_invariant. rewrite !andb_true_iff, nodupb_NoDup, !forallb_forall.
  split; [split |]; [exact H4 | |]; intros o Ho; apply existsb_eqb_In; apply H5; exact Ho.
Qed.

Lemma wf_init : tracker_wf HabitTracker_init.
Proof.
  unfold tracker_wf, HabitTracker_init, bucket_oids, name_oids; simpl.
  repeat split; try constructor; intros; simpl in *; tauto.
Qed.

Lemma wf_add (t : HabitTracker) (nm : string) (p : Z) (now : datetime) :
  tracker_wf t -> dict_get String.eqb nm (habits t) = None ->
  tracker_wf (add_habit t nm p now).
Proof.
  intros (H1 & H2 & H3 & H4 & H5 & H6 & H7) Hfresh.
  rewrite add_habit_eq.
  apply dict_get_None in Hfresh; [| exact String_eqb_spec'].
  rewrite dict_set_absent by (exact String_eqb_spec' || exact Hfresh).
  set (o := next_oid t) in *.
  destruct (bucket_append_spec p o (habits_by_periodicity t) H2) as (B1 & B2 & B3).
  assert (Hon : ~ In o (name_oids t)) by (intros Hin; apply H7 in Hin; lia).
  assert (Hob : ~ In o (bucket_oids t)) by (rewrite H5; exact Hon).
  unfold tracker_wf, bucket_oids, name_oids in *; cbn [habits habits_by_periodicity heap next_oid].
  rewrite !map_app. simpl. repeat split.
  - apply NoDup_app; [exact H1 | repeat constructor; simpl; tauto |].
    intros a Ha [<- | []]. tauto.
  - exact B1.
  - apply NoDup_app; [exact H3 | repeat constructor; simpl; tauto |].
    intros a Ha [<- | []]. tauto.
  - apply (Permutation_NoDup (Permutation_sym B2)).
    apply NoDup_app; [exact H4 | repeat constructor; simpl; tauto |].
    intros a Ha [<- | []]. tauto.
  - intros Hin. apply (Permutation_in _ B2) in Hin. rewrite in_app_iff in *.
    rewrite <- H5. exact Hin.
  - intros Hin. apply (Permutation_in _ (Permutation_sym B2)). rewrite in_app_iff in *.
    rewrite H5. exact Hin.
  - intros p' os' x Hin Hx. destruct (B3 p' os' x Hin Hx) as [[-> ->] | (os & Hos & Hx')].
    + exists (Habit_init nm p None now). unfold heap_upd. rewrite Nat.eqb_refl. auto.
    + destruct (H6 p' os x Hos Hx') as (hb & Hhb & Hp).
      assert (x <> o).
      { intros ->. apply Hob. apply in_flat_map_snd. eauto. }
      exists hb. unfold heap_upd. rewrite (proj2 (Nat.eqb_neq x o)) by assumption. auto.
  - intros x Hx. apply in_app_or in Hx. destruct Hx as [Hx | [<- | []]].
    + apply H7 in Hx. lia.
    + lia.
Qed.

Lemma filter_keys_absent (nm : string) (l : list (string * oid)) :
  ~ In nm (map fst l) -> filter (fun '(k, _) => negb (String.eqb nm k)) l = l.
Proof.
  induction l as [| [k v] l IH]; simpl; [reflexivity |].
  intros Hn. rewrite (proj2 (String.eqb_neq nm k)) by (intros ->; tauto).
  simpl. rewrite IH by tauto. reflexivity.
Qed.

Lemma wf_delete (t : HabitTracker) (nm : string) :
  tracker_wf t ->
  exists t', delete_habit t nm = Some t' /\ tracker_wf t'
    /\ habits t' = filter (fun '(k, _) => negb (String.eqb nm k)) (habits t)
    /\ heap t' = heap t /\ next_oid t' = next_oid t
    /\ (forall o, In o (bucket_oids t') <-> In o (bucket_oids t)
                                           /\ ~ (exists o', In (nm, o') (habits t) /\ o = o')).
Proof.
  intros Hwf. pose proof Hwf as (H1 & H2 & H3 & H4 & H5 & H6 & H7).
  unfold delete_habit.
  destruct (dict_get String.eqb nm (habits t)) as [o |] eqn:E.
  - destruct (dict_get_split String.eqb String_eqb_spec' nm o o (habits t) E)
      as (pre & post & Hhs & Hnpre & _ & Hdel).
    assert (Hon : In o (name_oids t))
      by (unfold name_oids; rewrite Hhs, map_app; apply in_or_app; right; left; reflexivity).
    apply H5, in_flat_map_snd in Hon as (p & os & Hpos & Hoos).
    destruct (H6 p os o Hpos Hoos) as (hb & Hhb & Hp). rewrite Hhb.
    unfold defaultdict_getitem.
    rewrite (dict_get_In Z.eqb Z_eqb_spec' (periodicity hb) os) by (rewrite ?Hp; assumption).
    cbv beta iota.
    destruct (list_remove_split o os Hoos) as (a & b & Hos & ->).
    rewrite Hp. rewrite Hdel.
    assert (Hget : dict_get Z.eqb p (habits_by_periodicity t) = Some os)
      by (apply (dict_get_In Z.eqb Z_eqb_spec'); assumption).
    destruct (dict_get_split Z.eqb Z_eqb_spec' p os (a ++ b) _ Hget)
      as (hpre & hpost & Hhbp & _ & -> & _).
    eexists. split; [reflexivity |].
    unfold tracker_wf, bucket_oids, name_oids in *; cbn [habits habits_by_periodicity heap next_oid].
    rewrite Hhs, Hhbp in *. subst os.
    rewrite !map_app in *. simpl in *.
    rewrite !flat_map_app in *. simpl in *.
    assert (Eb : flat_map snd hpre ++ (a ++ o :: b) ++ flat_map snd hpost
                 = (flat_map snd hpre ++ a) ++ o :: (b ++ flat_map snd hpost))
      by (rewrite <- !app_assoc; reflexivity).
    assert (Eb' : flat_map snd hpre ++ (a ++ b) ++ flat_map snd hpost
                  = (flat_map snd hpre ++ a) ++ (b ++ flat_map snd hpost))
      by (rewrite <- !app_assoc; reflexivity).
    rewrite Eb in H4, H5. rewrite Eb'.
    assert (Hnn : NoDup (map snd pre ++ o :: map snd post)) by exact H3.
    assert (Hbeq : forall x, In x ((flat_map snd hpre ++ a) ++ (b ++ flat_map snd hpost))
                    <-> In x ((flat_map snd hpre ++ a) ++ o :: (b ++ flat_map snd hpost))
                        /\ x <> o)
      by (intros x; apply in_remove_nodup, H4).
    assert (Hneq : forall x, In x (map snd pre ++ map snd post)
                    <-> In x (map snd pre ++ o :: map snd post) /\ x <> o)
      by (intros x; apply in_remove_nodup, Hnn).
    assert (Hnpost : ~ In nm (map fst post))
      by (intros Hin; apply (NoDup_remove_2 _ _ _ H1), in_app_iff; right; exact Hin).
    repeat split.
    + exact (NoDup_remove_1 _ _ _ H1).
    + exact H2.
    + exact (NoDup_remove_1 _ _ _ Hnn).
    + exact (NoDup_remove_1 _ _ _ H4).
    + intros Hin. apply Hneq. apply Hbeq in Hin as [Hin Hne]. split; [apply H5 |]; assumption.
    + intros Hin. apply Hbeq. apply Hneq in Hin as [Hin Hne]. split; [apply H5 |]; assumption.
    + intros p' os' x Hin Hx. apply in_app_or in Hin. destruct Hin as [Hin | [[= <- <-] | Hin]].
      * apply (H6 p' os'); [apply in_or_app; left |]; assumption.
      * apply (H6 p (a ++ o :: b)); [apply in_or_app; right; left; reflexivity |].
        apply in_app_or in Hx. apply in_or_app. simpl. tauto.
      * apply (H6 p' os'); [apply in_or_app; right; right |]; assumption.
    + intros x Hx. apply H7. apply in_app_or in Hx. apply in_or_app. simpl. tauto.
    + rewrite filter_app. simpl. rewrite String.eqb_refl. simpl.
      rewrite !filter_keys_absent by assumption. reflexivity.
    + rewrite Eb. match goal with H : In ?x _ |- In ?x _ => apply Hbeq in H; tauto end.
    + match goal with H : In ?x _ |- _ => apply Hbeq in H as [_ Hne] end.
      intros (o' & Ho' & Ex). subst o'.
      assert (Hk : dict_get String.eqb nm (pre ++ (nm, o) :: post) = Some o0)
        by (apply (dict_get_In String.eqb String_eqb_spec'); [rewrite map_app; exact H1 | exact Ho']).
      congruence.
    + intros [Hin Hno]. apply Hbeq. rewrite Eb in Hin. split; [exact Hin |].
      intros ->. apply Hno. exists o. split; [apply in_or_app; right; left |]; reflexivity.
  - eexists. split; [reflexivity |]. apply dict_get_None in E; [| exact String_eqb_spec'].
    repeat split; try assumption; try apply H5; try reflexivity.
    + rewrite filter_keys_absent by assumption. reflexivity.
    + intros (o' & Ho' & _). apply E. apply (in_map fst _ (nm, o') Ho').
    + intros [Hin _]. exact Hin.
Qed.

Lemma wf_checkoff (t : HabitTracker) (nm : string) (today : date) (now : datetime) :
  tracker_wf t -> tracker_wf (fst (checkoff_habit t nm today now))
                  /\ habits (fst (checkoff_habit t nm today now)) = habits t.
Proof.
  intros Hwf. unfold checkoff_habit.
  destruct (dict_get String.eqb nm (habits t)) as [o |]; [| auto].
  destruct (heap t o) as [hb |] eqn:Ho; [| auto].
  destruct Hwf as (H1 & H2 & H3 & H4 & H5 & H6 & H7).
  cbn [fst habits]. split; [| reflexivity].
  unfold tracker_wf, bucket_oids, name_oids in *; cbn [habits habits_by_periodicity heap next_oid].
  split; [exact H1 |]. split; [exact H2 |]. split; [exact H3 |]. split; [exact H4 |].
  split; [exact H5 |]. split; [| exact H7].
  intros p os x Hpos Hx. destruct (H6 p os x Hpos Hx) as (hb' & Hhb' & Hp).
  unfold heap_upd. destruct (Nat.eqb x o) eqn:E.
  - apply Nat.eqb_eq in E. subst x. rewrite Ho in Hhb'. injection Hhb' as <-.
    eexists. split; [reflexivity |]. exact Hp.
  - eauto.
Qed.

Lemma run_ops_wf (ops : list tracker_op) :
  forall t, tracker_wf t -> NoDup (added_names ops) ->
  (forall nm, In nm (added_names ops) -> ~ In nm (map fst (habits t))) ->
  exists t', run_ops t ops = Some t' /\ tracker_wf t'.
Proof.
  induction ops as [| op ops IH]; intros t Hwf Hnd Hfr; [exists t; auto |].
  destruct op as [nm p now | nm | nm today now]; simpl in *.
  - inversion Hnd as [| ? ? Hn Hnd']; subst.
    assert (Hg : dict_get String.eqb nm (habits t) = None)
      by (apply (dict_get_None String.eqb String_eqb_spec'); auto).
    apply IH; [apply wf_add; assumption | assumption |].
    intros k Hk. rewrite add_habit_eq. cbn [habits].
    apply dict_get_None in Hg; [| exact String_eqb_spec'].
    rewrite dict_set_absent by (exact String_eqb_spec' || exact Hg).
    rewrite map_app, in_app_iff. simpl. intros [H | [-> | []]]; [| tauto].
    exact (Hfr k (or_intror Hk) H).
  - destruct (wf_delete t nm Hwf) as (t' & -> & Hwf' & Hhs & _).
    apply IH; [assumption | assumption |].
    intros k Hk Hin. apply (Hfr k Hk). rewrite Hhs in Hin.
    apply in_map_iff in Hin as ([k' v] & <- & Hin). apply filter_In in Hin as [Hin _].
    apply (in_map fst _ _ Hin).
  - destruct (wf_checkoff t nm today now Hwf) as [Hwf' Hhs].
    apply IH; [assumption | assumption |]. rewrite Hhs. exact Hfr.
Qed.

(** ** Extra: longest streaks *)

Lemma zsum_app (l l' : list Z) : zsum (l ++ l') = zsum l + zsum l'.
Proof. induction l as [| x l IH]; simpl; [reflexivity |]. unfold zsum in *. simpl. lia. Qed.

Lemma walk_runs (p : Z) (l : list (datetime * datetime)) :
  forall runs cur, Forall (fun r => 1 <= r) runs -> 1 <= cur ->
  Forall (fun r => 1 <= r) (fst (fold_left (walk_step p) l (runs, cur)))
  /\ 1 <= snd (fold_left (walk_step p) l (runs, cur))
  /\ zsum (fst (fold_left (walk_step p) l (runs, cur)))
     + snd (fold_left (walk_step p) l (runs, cur))
     = zsum runs + cur + Z.of_nat (List.length l).
Proof.
  induction l as [| pr l IH]; intros runs cur Hr Hc; simpl; [repeat split; auto; lia |].
  unfold walk_step at 2. destruct (_ <=? _).
  - destruct (IH runs (cur + 1) Hr ltac:(lia)) as (A & B & C). repeat split; auto. lia.
  - destruct (IH (runs ++ [cur]) 1) as (A & B & C).
    + apply Forall_app. auto.
    + lia.
    + repeat split; auto. rewrite C, zsum_app. unfold zsum. simpl. lia.
Qed.

Lemma adj_pairs_length {A : Type} (a : A) (l : list A) :
  List.length (adj_pairs (a :: l)) = List.length l.
Proof.
  revert a. induction l as [| b l IH]; intros a; [reflexivity |].
  change (adj_pairs (a :: b :: l)) with ((a, b) :: adj_pairs (b :: l)).
  cbn [List.length]. rewrite IH. reflexivity.
Qed.

Lemma fold_max_in (t : list Z) : forall a, In (fold_left Z.max t a) (a :: t).
Proof.
  induction t as [| y t IH]; intros a; simpl; [auto |].
  destruct (IH (Z.max a y)) as [H | H].
  - rewrite <- H. destruct (Z.max_spec a y) as [[_ ->] | [_ ->]]; auto.
  - auto.
Qed.

Lemma in_le_zsum (x : Z) (l : list Z) :
  Forall (fun r => 0 <= r) l -> In x l -> x <= zsum l.
Proof.
  induction l as [| y l IH]; simpl; [tauto |]. intros Hf [-> | Hin]; inversion Hf; subst;
  unfold zsum in *; simpl.
  - assert (0 <= fold_right Z.add 0 l).
    { clear - H2. induction l; simpl; [lia |]. inversion H2; subst. specialize (IHl H3). lia. }
    lia.
  - specialize (IH H2 Hin). lia.
Qed.

Lemma longest_streak_bounds (h : Habit) :
  checkoffs h <> [] -> 1 <= longest_streak h <= Z.of_nat (List.length (checkoffs h)).
Proof.
  intros Hne. rewrite longest_streak_as_walk.
  destruct (checkoffs h) as [| a l] eqn:E; [congruence |].
  unfold longest_streak_spec, streak_walk. rewrite E.
  destruct (walk_runs (periodicity h) (adj_pairs (a :: l)) [] 1 (Forall_nil _) ltac:(lia))
    as (A & B & C).
  rewrite adj_pairs_length in C.
  destruct (fold_left (walk_step (periodicity h)) (adj_pairs (a :: l)) ([], 1)) as [runs cur].
  cbn [fst snd] in A, B, C.
  split.
  - apply Z.le_trans with cur; [exact B |]. apply py_max_ge. apply in_or_app. right. left. reflexivity.
  - assert (Hin : In (py_max (runs ++ [cur])) (runs ++ [cur])).
    { destruct (runs ++ [cur]) as [| x t] eqn:Er; [destruct runs; discriminate |].
      apply fold_max_in. }
    apply Z.le_trans with (zsum (runs ++ [cur])).
    + apply in_le_zsum; [| exact Hin]. apply Forall_app. split.
      * apply (Forall_impl (P := fun r => 1 <= r)); [intros; lia | exact A].
      * repeat constructor. lia.
    + rewrite zsum_app. replace (zsum [cur]) with cur by (unfold zsum; simpl; lia).
      replace (zsum []) with 0 in C by reflexivity.
      rewrite C. cbn [List.length]. rewrite Nat2Z.inj_succ. lia.
Qed.

Lemma longest_streak_nonneg (h : Habit) : 0 <= longest_streak h.
Proof.
  destruct (checkoffs h) eqn:E.
  - unfold longest_streak. rewrite E. lia.
  - pose proof (longest_streak_bounds h ltac:(congruence)). lia.
Qed.

Lemma longest_streak_zero (h : Habit) : longest_streak h = 0 <-> checkoffs h = [].
Proof.
  split.
  - intros H. destruct (checkoffs h) eqn:E; [reflexivity |].
    pose proof (longest_streak_bounds h ltac:(congruence)). lia.
  - intros E. unfold longest_streak. rewrite E. reflexivity.
Qed.

Lemma habit_values_In (t : HabitTracker) (nm : string) (o : oid) (hb : Habit) :
  In (nm, o) (habits t) -> heap t o = Some hb -> In hb (habit_values t).
Proof.
  intros Hin Hhb. unfold habit_values. apply in_flat_map. exists (nm, o). rewrite Hhb. simpl. auto.
Qed.

Lemma longest_streak_all_ge (t : HabitTracker) :
  0 <= longest_streak_all t
  /\ (forall hb, In hb (habit_values t) -> longest_streak hb <= longest_streak_all t).
Proof.
  unfold longest_streak_all.
  assert (Hn : forall x, In x (map longest_streak (habit_values t)) -> 0 <= x).
  { intros x Hx. apply in_map_iff in Hx as (hb & <- & _). apply longest_streak_nonneg. }
  split.
  - destruct (map longest_streak (habit_values t)) as [| x xs] eqn:E; [lia |].
    apply Hn. try rewrite E. apply fold_max_in.
  - intros hb Hhb. apply (in_map longest_streak) in Hhb.
    destruct (map longest_streak (habit_values t)) as [| x xs]; [destruct Hhb |].
    destruct (fold_max_ge xs x) as [H1 H2]. destruct Hhb as [<- | Hhb]; auto.
Qed.

(** ** Extra: load and save *)

Section DictVals.
Context {K V : Type} (eqk : K -> K -> bool).
Hypothesis eqk_spec : forall a b, eqk a b = true <-> a = b.

Lemma dict_set_vals (k : K) (v : V) (d : list (K * V)) :
  NoDup (map fst d) -> NoDup (map snd d) -> ~ In v (map snd d) ->
  NoDup (map fst (dict_set eqk k v d)) /\ NoDup (map snd (dict_set eqk k v d))
  /\ (forall x, In x (map snd (dict_set eqk k v d)) -> x = v \/ In x (map snd d))
  /\ In v (map snd (dict_set eqk k v d)).
Proof.
  intros Hk Hv Hn. destruct (dict_get eqk k d) as [w |] eqn:E.
  - destruct (dict_get_split eqk eqk_spec k w v d E) as (pre & post & -> & _ & -> & _).
    rewrite !map_app in *. simpl in *. split; [exact Hk |]. split.
    + apply (Permutation_NoDup (Permutation_middle _ _ _)).
      constructor; [| exact (NoDup_remove_1 _ _ _ Hv)].
      rewrite in_app_iff in *. simpl in Hn. tauto.
    + split.
      * intros x Hx. rewrite in_app_iff in *. simpl in *. destruct Hx as [Hx | [Hx | Hx]]; [tauto | left; congruence | tauto].
      * apply in_or_app. right. left. reflexivity.
  - apply (dict_get_None eqk eqk_spec) in E.
    rewrite (dict_set_absent eqk eqk_spec) by exact E. rewrite !map_app. simpl.
    split; [| split; [| split]].
    + apply NoDup_app; [exact Hk | repeat constructor; simpl; tauto |].
      intros a Ha [<- | []]. tauto.
    + apply NoDup_app; [exact Hv | repeat constructor; simpl; tauto |].
      intros a Ha [<- | []]. tauto.
    + intros x Hx. rewrite in_app_iff in Hx. simpl in Hx. destruct Hx as [Hx | [Hx | []]]; [tauto | left; congruence].
    + apply in_or_app. right. left. reflexivity.
Qed.

End DictVals.

Lemma load_habits_spec (data : list (string * HabitDict)) (now : datetime) :
  forall hs hp o hs' hp' o',
  NoDup (map fst hs) -> NoDup (map snd hs) ->
  (forall x, In x (map snd hs) -> (x < o)%nat /\ exists hb, hp x = Some hb) ->
  load_habits data now hs hp o = Some (hs', hp', o') ->
  NoDup (map fst hs') /\ NoDup (map snd hs')
  /\ (forall x, In x (map snd hs') -> (x < o')%nat /\ exists hb, hp' x = Some hb).
Proof.
  induction data as [| [nm hd] data IH]; intros hs hp o hs' hp' o' Hk Hv Hb Hl; simpl in Hl.
  - injection Hl as <- <- <-. auto.
  - destruct (from_dict hd now) as [hb |]; [| discriminate].
    assert (Hno : ~ In o (map snd hs)) by (intros Hin; apply Hb in Hin; lia).
    destruct (dict_set_vals String.eqb String_eqb_spec' nm o hs Hk Hv Hno) as (A & B & C & _).
    apply (IH _ (heap_upd hp o hb) (S o) hs' hp' o' A B); [| exact Hl].
    intros x Hx. apply C in Hx. destruct Hx as [-> | Hx].
    + split; [lia |]. exists hb. unfold heap_upd. rewrite Nat.eqb_refl. reflexivity.
    + destruct (Hb x Hx) as [Hlt [hb' Hhb']]. split; [lia |].
      exists hb'. unfold heap_upd. rewrite (proj2 (Nat.eqb_neq x o)) by lia. exact Hhb'.
Qed.

Lemma index_fold_spec (hp : oid -> option Habit) (l : list (string * oid)) :
  forall hbp, NoDup (map fst hbp) ->
  (forall o, In o (map snd l) -> exists hb, hp o = Some hb) ->
  let r := fold_left (fun hbp '(_, o) =>
                        match hp o with
                        | Some hb => bucket_append (periodicity hb) o hbp
                        | None => hbp
                        end) l hbp in
  NoDup (map fst r)
  /\ Permutation (flat_map snd r) (flat_map snd hbp ++ map snd l)
  /\ (forall p os x, In (p, os) r -> In x os ->
        (exists os0, In (p, os0) hbp /\ In x os0)
        \/ (In x (map snd l) /\ exists hb, hp x = Some hb /\ periodicity hb = p)).
Proof.
  induction l as [| [k o] l IH]; intros hbp Hk Hdef; simpl.
  - rewrite app_nil_r. split; [exact Hk |]. split; [apply Permutation_refl |].
    intros p os x Hin Hx. left. eauto.
  - destruct (Hdef o (or_introl eq_refl)) as [hb Hhb]. rewrite Hhb.
    destruct (bucket_append_spec (periodicity hb) o hbp Hk) as (B1 & B2 & B3).
    destruct (IH (bucket_append (periodicity hb) o hbp) B1
                 (fun o' H => Hdef o' (or_intror H))) as (C1 & C2 & C3).
    split; [exact C1 |]. split.
    + eapply Permutation_trans; [exact C2 |].
      rewrite <- Permutation_middle. simpl.
      eapply Permutation_trans; [apply Permutation_app_tail; exact B2 |].
      rewrite <- app_assoc. simpl. apply Permutation_sym, Permutation_middle.
    + intros p os x Hin Hx. destruct (C3 p os x Hin Hx) as [(os0 & Hos0 & Hx0) | [Hxl Hper]].
      * destruct (B3 p os0 x Hos0 Hx0) as [[-> ->] | Hold].
        -- right. split; [left; reflexivity |]. eauto.
        -- left. exact Hold.
      * right. split; [right; exact Hxl | exact Hper].
Qed.

Lemma load_wf (t : HabitTracker) (data : list (string * HabitDict)) (now : datetime)
  (t' : HabitTracker) :
  load_from_file t (Some data) now = Some t' -> tracker_wf t'.
Proof.
  unfold load_from_file.
  destruct (load_habits data now [] (heap t) (next_oid t)) as [[[hs hp] o] |] eqn:E;
    [| discriminate].
  intros [= <-].
  destruct (load_habits_spec data now [] (heap t) (next_oid t) hs hp o
              (NoDup_nil _) (NoDup_nil _) (fun x H => match H with end) E) as (A & B & C).
  destruct (index_fold_spec hp hs [] (NoDup_nil _) (fun x H => proj2 (C x H)))
    as (D1 & D2 & D3).
  unfold tracker_wf, bucket_oids, name_oids, index_by_periodicity.
  cbn [habits habits_by_periodicity heap next_oid]. simpl in D2.
  split; [exact A |]. split; [exact D1 |]. split; [exact B |]. split.
  - exact (Permutation_NoDup (Permutation_sym D2) B).
  - split; [| split].
    + intros x. split; intros Hx.
      * exact (Permutation_in _ D2 Hx).
      * exact (Permutation_in _ (Permutation_sym D2) Hx).
    + intros p os x Hin Hx. destruct (D3 p os x Hin Hx) as [(os0 & [] & _) | [_ H]]. exact H.
    + intros x Hx. apply (C x Hx).
Qed.

Lemma load_habits_by_spec (parse : string -> option datetime)
  (data : list (string * HabitDict)) (now : datetime) :
  forall hs hp o hs' hp' o',
  NoDup (map fst hs) -> NoDup (map snd hs) ->
  (forall x, In x (map snd hs) -> (x < o)%nat /\ exists hb, hp x = Some hb) ->
  load_habits_by parse data now hs hp o = Some (hs', hp', o') ->
  NoDup (map fst hs') /\ NoDup (map snd hs')
  /\ (forall x, In x (map snd hs') -> (x < o')%nat /\ exists hb, hp' x = Some hb).
Proof.
  induction data as [| [nm hd] data IH]; intros hs hp o hs' hp' o' Hk Hv Hb Hl; simpl in Hl.
  - injection Hl as <- <- <-. auto.
  - destruct (from_dict_by parse hd now) as [hb |]; [| discriminate].
    assert (Hno : ~ In o (map snd hs)) by (intros Hin; apply Hb in Hin; lia).
    destruct (dict_set_vals String.eqb String_eqb_spec' nm o hs Hk Hv Hno) as (A & B & C & _).
    apply (IH _ (heap_upd hp o hb) (S o) hs' hp' o' A B); [| exact Hl].
    intros x Hx. apply C in Hx. destruct Hx as [-> | Hx].
    + split; [lia |]. exists hb. unfold heap_upd. rewrite Nat.eqb_refl. reflexivity.
    + destruct (Hb x Hx) as [Hlt [hb' Hhb']]. split; [lia |].
      exists hb'. unfold heap_upd. rewrite (proj2 (Nat.eqb_neq x o)) by lia. exact Hhb'.
Qed.

(** The indexes [load_from_file] builds from a loaded name map are well formed. *)
Lemma rebuilt_index_wf (hs : list (string * oid)) (hp : oid -> option Habit) (o : oid) :
  NoDup (map fst hs) -> NoDup (map snd hs) ->
  (forall x, In x (map snd hs) -> (x < o)%nat /\ exists hb, hp x = Some hb) ->
  tracker_wf (mkTracker hs (index_by_periodicity hp hs) hp o).
Proof.
  intros A B C.
  destruct (index_fold_spec hp hs [] (NoDup_nil _) (fun x H => proj2 (C x H)))
    as (D1 & D2 & D3).
  unfold tracker_wf, bucket_oids, name_oids, index_by_periodicity.
  cbn [habits habits_by_periodicity heap next_oid]. simpl in D2.
  split; [exact A |]. split; [exact D1 |]. split; [exact B |]. split.
  - exact (Permutation_NoDup (Permutation_sym D2) B).
  - split; [| split].
    + intros x. split; intros Hx.
      * exact (Permutation_in _ D2 Hx).
      * exact (Permutation_in _ (Permutation_sym D2) Hx).
    + intros p os x Hin Hx. destruct (D3 p os x Hin Hx) as [(os0 & [] & _) | [_ H]]. exact H.
    + intros x Hx. apply (C x Hx).
Qed.

Lemma parse_all_by_iso (l : list string) : parse_all_by fromisoformat l = parse_all l.
Proof. induction l as [| x l IH]; simpl; [reflexivity |]. rewrite IH. reflexivity. Qed.

Lemma from_dict_by_iso (d : HabitDict) (now : datetime) :
  from_dict_by fromisoformat d now = from_dict d now.
Proof. unfold from_dict_by, from_dict. rewrite parse_all_by_iso. reflexivity. Qed.

(** With the parser of [isoformat()] output, [load_from_file_by] is [load_from_file]. *)
Lemma load_from_file_by_iso (t : HabitTracker) (file : option (list (string * HabitDict)))
  (now : datetime) :
  load_from_file_by fromisoformat t file now = load_from_file t file now.
Proof.
  destruct file as [data |]; [| reflexivity]. unfold load_from_file_by, load_from_file.
  assert (H : forall hs hp o, load_habits_by fromisoformat data now hs hp o
                              = load_habits data now hs hp o).
  { induction data as [| [nm hd] data IH]; intros hs hp o; simpl; [reflexivity |].
    rewrite from_dict_by_iso. destruct (from_dict hd now); [apply IH | reflexivity]. }
  rewrite H. reflexivity.
Qed.

Lemma habit_values_values_in (t : HabitTracker) : habit_values t = values_in (heap t) (habits t).
Proof. reflexivity. Qed.

Lemma from_dict_to_dict (h : Habit) (now : datetime) :
  valid_datetime (created_at h) = true -> forallb valid_datetime (checkoffs h) = true ->
  from_dict (to_dict h) now = Some (reloaded h).
Proof.
  intros Hc Hcs. unfold from_dict, to_dict. cbn [d_name d_periodicity d_created_at d_checkoffs].
  rewrite fromisoformat_isoformat by exact Hc.
  rewrite parse_all_map_isoformat by exact Hcs.
  unfold reloaded. destruct (checkoffs h); reflexivity.
Qed.

Lemma values_in_upd_old (hp : oid -> option Habit) (o : oid) (hb : Habit)
  (hs : list (string * oid)) :
  (forall x, In x (map snd hs) -> (x < o)%nat) ->
  values_in (heap_upd hp o hb) hs = values_in hp hs.
Proof.
  induction hs as [| [k x] hs IH]; intros Hlt; simpl; [reflexivity |].
  unfold heap_upd at 1. rewrite (proj2 (Nat.eqb_neq x o)) by (specialize (Hlt x (or_introl eq_refl)); lia).
  f_equal. apply IH. intros y Hy. apply Hlt. right. exact Hy.
Qed.

Lemma values_in_app (hp : oid -> option Habit) (l l' : list (string * oid)) :
  values_in hp (l ++ l') = values_in hp l ++ values_in hp l'.
Proof. apply flat_map_app. Qed.

Lemma load_habits_saved (now : datetime) (L : list (string * Habit)) :
  forall hs hp o,
  NoDup (map fst hs ++ map fst L) ->
  (forall x, In x (map snd hs) -> (x < o)%nat) ->
  forallb habit_valid (map snd L) = true ->
  exists hs' hp' o',
    load_habits (map (fun '(nm, hb) => (nm, to_dict hb)) L) now hs hp o = Some (hs', hp', o')
    /\ map fst hs' = map fst hs ++ map fst L
    /\ values_in hp' hs' = values_in hp hs ++ map reloaded (map snd L).
Proof.
  induction L as [| [nm hb] L IH]; intros hs hp o Hnd Hlt Hv; simpl in *.
  - exists hs, hp, o. rewrite !app_nil_r. auto.
  - apply andb_prop in Hv as [Hhb Hv]. unfold habit_valid in Hhb. apply andb_prop in Hhb as [Hc Hcs].
    rewrite from_dict_to_dict by assumption.
    assert (Hfresh : ~ In nm (map fst hs))
      by (intros Hin; apply (NoDup_remove_2 _ _ _ Hnd), in_app_iff; left; exact Hin).
    rewrite (dict_set_absent String.eqb String_eqb_spec') by exact Hfresh.
    destruct (IH (hs ++ [(nm, o)]) (heap_upd hp o (reloaded hb)) (S o)) as (hs' & hp' & o' & E & K & Vs).
    + rewrite map_app, <- app_assoc. exact Hnd.
    + intros x Hx. rewrite map_app in Hx. apply in_app_or in Hx. simpl in Hx.
      destruct Hx as [Hx | [<- | []]]; [apply Hlt in Hx |]; lia.
    + exact Hv.
    + exists hs', hp', o'. split; [exact E |]. split.
      * rewrite K, map_app, <- app_assoc. reflexivity.
      * rewrite Vs, values_in_app, values_in_upd_old by exact Hlt.
        simpl. unfold heap_upd at 1. rewrite Nat.eqb_refl. rewrite <- app_assoc. reflexivity.
Qed.

Lemma wf_heap_defined (t : HabitTracker) :
  tracker_wf t -> forall nm o, In (nm, o) (habits t) -> exists hb, heap t o = Some hb.
Proof.
  intros (_ & _ & _ & _ & H5 & H6 & _) nm o Hin.
  assert (Ho : In o (bucket_oids t)) by (apply H5; apply (in_map snd _ (nm, o) Hin)).
  apply in_flat_map_snd in Ho as (p & os & Hpos & Hoos).
  destruct (H6 p os o Hpos Hoos) as (hb & Hhb & _). eauto.
Qed.

Lemma habit_items_facts (t : HabitTracker) :
  tracker_wf t ->
  map fst (habit_items t) = map fst (habits t)
  /\ map snd (habit_items t) = get_all_habits t
  /\ save_to_file t = map (fun '(nm, hb) => (nm, to_dict hb)) (habit_items t).
Proof.
  intros Hwf. pose proof (wf_heap_defined t Hwf) as Hd.
  unfold habit_items, get_all_habits, habit_values, save_to_file.
  induction (habits t) as [| [nm o] l IH]; [auto |].
  destruct (Hd nm o (or_introl eq_refl)) as [hb Hhb].
  destruct IH as (A & B & C); [intros nm' o' H; apply (Hd nm' o'); right; exact H |].
  simpl. rewrite Hhb. simpl. rewrite A, B, C. auto.
Qed.

(** ** Extra: tests of well-formedness *)

Section NodupBy.
Context {A : Type} (eqb : A -> A -> bool).
Hypothesis eqb_spec : forall a b, eqb a b = true <-> a = b.

Lemma existsb_eqb_iff (x : A) (l : list A) : existsb (eqb x) l = true <-> In x l.
Proof.
  rewrite existsb_exists. split.
  - intros (y & Hy & E). apply eqb_spec in E. subst. exact Hy.
  - intros H. exists x. split; [exact H | apply eqb_spec; reflexivity].
Qed.

Lemma nodup_by_NoDup (l : list A) : nodup_by eqb l = true <-> NoDup l.
Proof.
  induction l as [| x l IH]; simpl.
  - split; [constructor | reflexivity].
  - rewrite andb_true_iff, negb_true_iff, IH. split.
    + intros [Hx Hl]. constructor; [| exact Hl]. intros Hin.
      apply existsb_eqb_iff in Hin. congruence.
    + intros Hnd. inversion Hnd as [| ? ? Hn Hl]; subst. split; [| exact Hl].
      apply not_true_is_false. intros Hc. apply existsb_eqb_iff in Hc. tauto.
Qed.

End NodupBy.

Lemma Nat_eqb_spec' (a b : nat) : Nat.eqb a b = true <-> a = b.
Proof. apply Nat.eqb_eq. Qed.

Lemma tracker_wfb_spec (t : HabitTracker) : tracker_wfb t = true <-> tracker_wf t.
Proof.
  unfold tracker_wfb, tracker_wf.
  rewrite !andb_true_iff, (nodup_by_NoDup _ String_eqb_spec'), (nodup_by_NoDup _ Z_eqb_spec'),
    !(nodup_by_NoDup _ Nat_eqb_spec'), !forallb_forall.
  assert (Hm : (forall x, In x (bucket_oids t) -> existsb (Nat.eqb x) (name_oids t) = true)
               /\ (forall x, In x (name_oids t) -> existsb (Nat.eqb x) (bucket_oids t) = true)
               <-> (forall o, In o (bucket_oids t) <-> In o (name_oids t))).
  { setoid_rewrite (existsb_eqb_iff _ Nat_eqb_spec'). firstorder. }
  assert (Hp : (forall x, In x (habits_by_periodicity t) ->
                 (fun '(p, os) => forallb (fun o => match heap t o with
                                                    | Some hb => periodicity hb =? p
                                                    | None => false
                                                    end) os) x = true)
               <-> (forall p os o, In (p, os) (habits_by_periodicity t) -> In o os ->
                     exists hb, heap t o = Some hb /\ periodicity hb = p)).
  { split.
    - intros H p os o Hin Ho. specialize (H _ Hin). simpl in H.
      rewrite forallb_forall in H. specialize (H o Ho).
      destruct (heap t o) as [hb |]; [| discriminate]. apply Z.eqb_eq in H. eauto.
    - intros H [p os] Hin. apply forallb_forall. intros o Ho.
      destruct (H p os o Hin Ho) as (hb & -> & <-). apply Z.eqb_refl. }
  assert (Hl : (forall x, In x (name_oids t) -> Nat.ltb x (next_oid t) = true)
               <-> (forall o, In o (name_oids t) -> (o < next_oid t)%nat)).
  { setoid_rewrite Nat.ltb_lt. reflexivity. }
  rewrite <- Hm, <- Hp, <- Hl. tauto.
Qed.

Lemma wf_get_by_periodicity (t : HabitTracker) (p : Z) :
  tracker_wf t ->
  NoDup (fst (get_habits_by_periodicity t p))
  /\ (forall o, In o (fst (get_habits_by_periodicity t p))
               <-> exists nm hb, In (nm, o) (habits t) /\ heap t o = Some hb
                                /\ periodicity hb = p)
  /\ tracker_wf (snd (get_habits_by_periodicity t p)).
Proof.
  intros Hwf. pose proof Hwf as (H1 & H2 & H3 & H4 & H5 & H6 & H7).
  assert (Hback : forall nm o hb, In (nm, o) (habits t) -> heap t o = Some hb ->
            exists os, In (periodicity hb, os) (habits_by_periodicity t) /\ In o os).
  { intros nm o hb Hin Hhb.
    assert (Ho : In o (bucket_oids t)) by (apply H5; apply (in_map snd _ (nm, o) Hin)).
    apply in_flat_map_snd in Ho as (p' & os & Hpos & Hoos).
    destruct (H6 p' os o Hpos Hoos) as (hb' & Hhb' & Hp').
    rewrite Hhb in Hhb'. injection Hhb' as <-. subst p'. eauto. }
  unfold get_habits_by_periodicity, defaultdict_getitem.
  destruct (dict_get Z.eqb p (habits_by_periodicity t)) as [os |] eqn:E; cbn [fst snd].
  - destruct (dict_get_split Z.eqb Z_eqb_spec' p os os _ E) as (pre & post & Hh & _).
    split; [| split].
    + unfold bucket_oids in H4. rewrite Hh, flat_map_app in H4. simpl in H4.
      exact (NoDup_app_remove_r _ _ (NoDup_app_remove_l _ _ H4)).
    + intros o. split.
      * intros Ho.
        assert (Hpos : In (p, os) (habits_by_periodicity t))
          by (rewrite Hh; apply in_or_app; right; left; reflexivity).
        destruct (H6 p os o Hpos Ho) as (hb & Hhb & Hp).
        assert (Hn : In o (name_oids t)) by (apply H5, in_flat_map_snd; eauto).
        apply in_map_iff in Hn as ([nm o'] & Ho' & Hin). simpl in Ho'. subst o'. eauto.
      * intros (nm & hb & Hin & Hhb & <-).
        destruct (Hback nm o hb Hin Hhb) as (os' & Hpos & Hoos).
        rewrite (dict_get_In Z.eqb Z_eqb_spec' _ _ _ H2 Hpos) in E. congruence.
    + exact Hwf.
  - apply (dict_get_None Z.eqb Z_eqb_spec') in E.
    split; [| split].
    + constructor.
    + intros o. split; [intros [] |]. intros (nm & hb & Hin & Hhb & <-).
      destruct (Hback nm o hb Hin Hhb) as (os' & Hpos & _).
      apply E. exact (in_map fst _ _ Hpos).
    + unfold tracker_wf, bucket_oids, name_oids in *.
      cbn [habits habits_by_periodicity heap next_oid].
      rewrite map_app, flat_map_app. simpl. rewrite app_nil_r.
      split; [exact H1 |]. split.
      * apply NoDup_app; [exact H2 | repeat constructor; simpl; tauto |].
        intros a Ha [<- | []]. tauto.
      * split; [exact H3 |]. split; [exact H4 |]. split; [exact H5 |]. split; [| exact H7].
        intros p' os' x Hin Hx. apply in_app_or in Hin. destruct Hin as [Hin | [[= <- <-] | []]].
        -- exact (H6 p' os' x Hin Hx).
        -- destruct Hx.
Qed.

(** ** Extra: [get_user_input] *)

Lemma pystr_eqb_spec (a b : pystr) : pystr_eqb a b = true <-> a = b.
Proof.
  revert b. induction a as [| x a IH]; intros [| y b]; simpl;
    try (split; congruence).
  rewrite andb_true_iff, Z.eqb_eq, IH. split; [intros [-> ->]; reflexivity | intros [=]; auto].
Qed.

(** A line with a leading no-break space is stripped as [str.strip()] does. *)
Example get_user_input_nbsp :
  get_user_input (fun s => s) (pystr_of_string "Continue? ")
    [pystr_of_string "yes"; pystr_of_string "no"]
    [[160; 121; 101; 115]; pystr_of_string "no"]
  = (Some (pystr_of_string "yes"), [pystr_of_string "Continue? "]).
Proof. vm_compute. reflexivity. Qed.

(** X9: [get_user_input] reading the lines [lines], whatever [str.lower()]
    does: if it returns, its answer is the stripped, lower-cased first line
    that is one of [valid], every earlier line was refused, and each refusal
    wrote the prompt and the "Please enter one of the following" message
    once; if the lines run out, every line was refused. *)
Lemma get_user_input_spec (py_lower : pystr -> pystr) (prompt : pystr) (valid : list pystr)
  (lines : list pystr) :
  match fst (get_user_input py_lower prompt valid lines) with
  | Some r =>
      exists pre line post, lines = pre ++ line :: post
        /\ forallb (fun l => negb (acceptable py_lower valid l)) pre = true
        /\ acceptable py_lower valid line = true
        /\ r = normalize_response py_lower line /\ In r valid
        /\ snd (get_user_input py_lower prompt valid lines)
           = List.concat (repeat [prompt; please_enter valid] (List.length pre)) ++ [prompt]
  | None =>
      forallb (fun l => negb (acceptable py_lower valid l)) lines = true
      /\ snd (get_user_input py_lower prompt valid lines)
         = List.concat (repeat [prompt; please_enter valid] (List.length lines)) ++ [prompt]
  end.
Proof.
  induction lines as [| line rest IH]; [simpl; auto |].
  change (get_user_input py_lower prompt valid (line :: rest))
    with (if acceptable py_lower valid line
          then (Some (normalize_response py_lower line), [prompt])
          else let '(r, out) := get_user_input py_lower prompt valid rest in
               (r, prompt :: please_enter valid :: out)).
  destruct (acceptable py_lower valid line) eqn:E.
  - cbn [fst snd]. exists [], line, rest. cbn [app forallb List.length repeat List.concat].
    repeat split; auto.
    unfold acceptable in E. apply existsb_exists in E as (x & Hx & Ex).
    apply pystr_eqb_spec in Ex. subst. exact Hx.
  - destruct (get_user_input py_lower prompt valid rest) as [r out]. cbn [fst snd] in *.
    destruct r as [r |].
    + destruct IH as (pre & l & post & -> & A & B & C & D & F).
      exists (line :: pre), l, post. cbn [app forallb List.length repeat List.concat].
      rewrite E, F. simpl. repeat split; auto.
    + destruct IH as [A B]. cbn [forallb List.length repeat List.concat].
      rewrite E, A, B. simpl. auto.
Qed.

(** ** Extra properties *)

Lemma add_fresh_values (t : HabitTracker) (nm : string) (p : Z) (now : datetime) :
  tracker_wf t -> dict_get String.eqb nm (habits t) = None ->
  get_all_habits (add_habit t nm p now) = get_all_habits t ++ [Habit_init nm p None now].
Proof.
  intros Hwf Hg. pose proof Hwf as (_ & _ & _ & _ & _ & _ & H7).
  apply (dict_get_None String.eqb String_eqb_spec') in Hg.
  rewrite add_habit_eq. unfold get_all_habits. rewrite !habit_values_values_in.
  cbn [habits heap].
  rewrite (dict_set_absent String.eqb String_eqb_spec') by exact Hg.
  rewrite values_in_app, values_in_upd_old by exact H7.
  simpl. unfold heap_upd. rewrite Nat.eqb_refl. reflexivity.
Qed.

(** X1: [Habit.longest_streak]: a habit with at least one checkoff has a longest
    streak between 1 and its number of checkoffs. *)
Theorem longest_streak_range (h : Habit) :
  (0 < List.length (checkoffs h))%nat ->
  1 <= longest_streak h <= Z.of_nat (List.length (checkoffs h)).
Proof.
  intros H. apply longest_streak_bounds. intros E. rewrite E in H. simpl in H. lia.
Qed.

Lemma longest_streak_range_witness :
  (0 < List.length (checkoffs exercise_habit))%nat /\
  1 <= longest_streak exercise_habit <= Z.of_nat (List.length (checkoffs exercise_habit)).
Proof.
  split; [simpl; lia |]. apply (longest_streak_range exercise_habit). simpl. lia.
Defined.

(** X2: [longest_streak_all] bounds [longest_streak_for_habit] for every name, and
    is 0 exactly when no habit has a checkoff. *)
Theorem longest_streak_all_spec (t : HabitTracker) :
  (forall nm, longest_streak_for_habit t nm <= longest_streak_all t)
  /\ (longest_streak_all t = 0 <-> Forall (fun hb => checkoffs hb = []) (get_all_habits t)).
Proof.
  destruct (longest_streak_all_ge t) as [H0 Hge]. split.
  - intros nm. unfold longest_streak_for_habit.
    destruct (dict_get String.eqb nm (habits t)) as [o |] eqn:E; [| exact H0].
    destruct (heap t o) as [hb |] eqn:Ho; [| exact H0].
    apply Hge. apply (habit_values_In t nm o hb); [| exact Ho].
    exact (dict_get_Some_In String.eqb String_eqb_spec' _ _ _ E).
  - unfold get_all_habits. rewrite Forall_forall. split.
    + intros Hz hb Hhb. apply longest_streak_zero.
      pose proof (Hge hb Hhb). pose proof (longest_streak_nonneg hb). lia.
    + intros Hall. unfold longest_streak_all.
      destruct (map longest_streak (habit_values t)) as [| x xs] eqn:E; [reflexivity |].
      assert (Hin : In (fold_left Z.max xs x) (map longest_streak (habit_values t)))
        by (rewrite E; apply fold_max_in).
      apply in_map_iff in Hin as (hb & Hv & Hhb). rewrite <- Hv.
      apply longest_streak_zero. apply Hall. exact Hhb.
Qed.

(** X3: [add_habit] with a name not in use, on well-formed indexes: the new habit
    is listed last by [get_all_habits] and the indexes stay well formed. *)
Theorem add_habit_fresh_appends (t : HabitTracker) (nm : string) (p : Z) (now : datetime) :
  tracker_wfb t = true -> dict_get String.eqb nm (habits t) = None ->
  get_all_habits (add_habit t nm p now) = get_all_habits t ++ [Habit_init nm p None now]
  /\ tracker_wfb (add_habit t nm p now) = true.
Proof.
  intros Hwf Hg. apply tracker_wfb_spec in Hwf. split.
  - apply add_fresh_values; assumption.
  - apply tracker_wfb_spec. apply wf_add; assumption.
Qed.

Lemma add_habit_fresh_appends_witness :
  tracker_wfb struggle_tracker = true
  /\ dict_get String.eqb "Yoga"%string (habits struggle_tracker) = None
  /\ get_all_habits (add_habit struggle_tracker "Yoga"%string 2 (midnight 2023 7 2))
     = get_all_habits struggle_tracker ++ [Habit_init "Yoga"%string 2 None (midnight 2023 7 2)]
  /\ tracker_wfb (add_habit struggle_tracker "Yoga"%string 2 (midnight 2023 7 2)) = true.
Proof.
  split; [vm_compute; reflexivity |]. split; [vm_compute; reflexivity |].
  apply add_habit_fresh_appends; vm_compute; reflexivity.
Defined.

(** X4: [delete_habit] on well-formed indexes never raises: the name leaves the
    name map (the other names keep their order), its object leaves its bucket,
    every other bucket entry stays, and the indexes stay well formed. *)
Theorem delete_habit_removes (t : HabitTracker) (nm : string) :
  tracker_wfb t = true ->
  exists t', delete_habit t nm = Some t' /\ tracker_wfb t' = true
    /\ habits t' = filter (fun '(k, _) => negb (String.eqb nm k)) (habits t)
    /\ (forall o, In o (bucket_oids t') <-> In o (bucket_oids t)
                                           /\ ~ (exists o', In (nm, o') (habits t) /\ o = o')).
Proof.
  intros Hwf. apply tracker_wfb_spec in Hwf.
  destruct (wf_delete t nm Hwf) as (t' & E & Hwf' & Hh & _ & _ & Hb).
  exists t'. rewrite tracker_wfb_spec. auto.
Qed.

Lemma delete_habit_removes_witness :
  tracker_wfb struggle_tracker = true
  /\ exists t', delete_habit struggle_tracker "Walk"%string = Some t' /\ tracker_wfb t' = true
    /\ habits t' = filter (fun '(k, _) => negb (String.eqb "Walk"%string k)) (habits struggle_tracker)
    /\ (forall o, In o (bucket_oids t') <-> In o (bucket_oids struggle_tracker)
                  /\ ~ (exists o', In ("Walk"%string, o') (habits struggle_tracker) /\ o = o')).
Proof.
  split; [vm_compute; reflexivity |]. apply delete_habit_removes. vm_compute. reflexivity.
Defined.

(** X5: runs from an empty tracker in which no name is added twice: no call
    raises, and the name map and the periodicity buckets stay in step. *)
Theorem fresh_name_runs_keep_indexes (ops : list tracker_op) :
  nodup_by String.eqb (added_names ops) = true ->
  exists t, run_ops HabitTracker_init ops = Some t
    /\ tracker_wfb t = true /\ index_invariant t = true.
Proof.
  intros Hnd. apply (nodup_by_NoDup _ String_eqb_spec') in Hnd.
  destruct (run_ops_wf ops HabitTracker_init wf_init Hnd) as (t & E & Hwf).
  - intros nm _ [].
  - exists t. split; [exact E |]. split; [apply tracker_wfb_spec; exact Hwf |].
    apply wf_index_invariant. exact Hwf.
Qed.

Lemma fresh_name_runs_keep_indexes_witness :
  nodup_by String.eqb (added_names fresh_ops) = true
  /\ exists t, run_ops HabitTracker_init fresh_ops = Some t
    /\ tracker_wfb t = true /\ index_invariant t = true.
Proof.
  split; [vm_compute; reflexivity |]. apply fresh_name_runs_keep_indexes. vm_compute. reflexivity.
Defined.

(** X6: [get_habits_by_periodicity(p)] on well-formed indexes: the returned bucket
    holds each habit of the name map with periodicity [p] once, and nothing
    else; the indexes stay well formed. *)
Theorem get_habits_by_periodicity_exact (t : HabitTracker) (p : Z) :
  tracker_wfb t = true ->
  NoDup (fst (get_habits_by_periodicity t p))
  /\ (forall o, In o (fst (get_habits_by_periodicity t p))
              <-> exists nm hb, In (nm, o) (habits t) /\ heap t o = Some hb
                               /\ periodicity hb = p)
  /\ tracker_wfb (snd (get_habits_by_periodicity t p)) = true.
Proof.
  intros Hwf. apply tracker_wfb_spec in Hwf.
  destruct (wf_get_by_periodicity t p Hwf) as (A & B & C).
  rewrite tracker_wfb_spec. auto.
Qed.

Lemma get_habits_by_periodicity_exact_witness :
  tracker_wfb struggle_tracker = true
  /\ NoDup (fst (get_habits_by_periodicity struggle_tracker 1))
  /\ (forall o, In o (fst (get_habits_by_periodicity struggle_tracker 1))
              <-> exists nm hb, In (nm, o) (habits struggle_tracker)
                  /\ heap struggle_tracker o = Some hb /\ periodicity hb = 1)
  /\ tracker_wfb (snd (get_habits_by_periodicity struggle_tracker 1)) = true.
Proof.
  split; [vm_compute; reflexivity |]. apply get_habits_by_periodicity_exact.
  vm_compute. reflexivity.
Defined.

(** X7: [load_from_file] rebuilds the periodicity index from the name map:
    whatever [datetime.fromisoformat] accepts, after a load that succeeds
    the two indexes are well formed and in step. *)
Theorem load_from_file_indexes (parse : string -> option datetime) (t : HabitTracker)
  (data : list (string * HabitDict)) (now : datetime) (t' : HabitTracker) :
  load_from_file_by parse t (Some data) now = Some t' ->
  tracker_wfb t' = true /\ index_invariant t' = true.
Proof.
  unfold load_from_file_by.
  destruct (load_habits_by parse data now [] (heap t) (next_oid t)) as [[[hs hp] o] |] eqn:E;
    [| discriminate].
  intros [= <-].
  destruct (load_habits_by_spec parse data now [] (heap t) (next_oid t) hs hp o
              (NoDup_nil _) (NoDup_nil _) (fun x H => match H with end) E) as (A & B & C).
  pose proof (rebuilt_index_wf hs hp o A B C) as Hwf.
  split; [apply tracker_wfb_spec; exact Hwf | apply wf_index_invariant; exact Hwf].
Qed.

Lemma load_from_file_indexes_witness :
  load_from_file_by fromisoformat HabitTracker_init (Some sample_file) (midnight 2023 7 2)
    = Some sample_loaded
  /\ tracker_wfb sample_loaded = true /\ index_invariant sample_loaded = true.
Proof.
  split; [vm_compute; reflexivity |].
  apply (load_from_file_indexes fromisoformat HabitTracker_init sample_file (midnight 2023 7 2)).
  vm_compute. reflexivity.
Defined.

(** X8: [save_to_file] then [load_from_file] (into any tracker): the names come
    back in the same order, each habit as [from_dict(to_dict())] rebuilds it
    (streak 0, last checkoff date from the last checkoff), and the indexes
    are well formed. *)
Theorem save_load_roundtrip (t t0 : HabitTracker) (now : datetime) :
  tracker_wfb t = true -> forallb habit_valid (get_all_habits t) = true ->
  exists t', load_from_file t0 (Some (save_to_file t)) now = Some t'
    /\ map fst (habits t') = map fst (habits t)
    /\ get_all_habits t' = map reloaded (get_all_habits t)
    /\ tracker_wfb t' = true.
Proof.
  intros Hwf Hv. apply tracker_wfb_spec in Hwf.
  destruct (habit_items_facts t Hwf) as (K & V & S).
  rewrite S. rewrite <- V in Hv |- *.
  pose proof Hwf as (H1 & _).
  destruct (load_habits_saved now (habit_items t) (@nil (string * oid)) (heap t0) (next_oid t0))
    as (hs' & hp' & o' & E & K' & V').
  - simpl. rewrite K. exact H1.
  - intros x [].
  - exact Hv.
  - unfold load_from_file. rewrite E. eexists. split; [reflexivity |].
    cbn [habits]. rewrite K', <- K. split; [reflexivity |]. split.
    + unfold get_all_habits. rewrite habit_values_values_in. cbn [heap habits]. exact V'.
    + apply tracker_wfb_spec. eapply load_wf. unfold load_from_file. rewrite E. reflexivity.
Qed.

Lemma save_load_roundtrip_witness :
  tracker_wfb struggle_tracker = true
  /\ forallb habit_valid (get_all_habits struggle_tracker) = true
  /\ exists t', load_from_file HabitTracker_init (Some (save_to_file struggle_tracker))
                               (midnight 2023 8 1) = Some t'
    /\ map fst (habits t') = map fst (habits struggle_tracker)
    /\ get_all_habits t' = map reloaded (get_all_habits struggle_tracker)
    /\ tracker_wfb t' = true.
Proof.
  split; [vm_compute; reflexivity |]. split; [vm_compute; reflexivity |].
  apply save_load_roundtrip; vm_compute; reflexivity.
Defined.

Lemma count_fold_bounds (l : list string) (c : Z) :
  c <= fold_left (fun completed response =>
                    if String.eqb response "yes" then completed + 1 else completed) l c
    <= c + Z.of_nat (List.length l).
Proof.
  revert c. induction l as [| r l IH]; intros c; simpl; [lia |].
  destruct (String.eqb r "yes"); [pose proof (IH (c + 1)) | pose proof (IH c)]; lia.
Qed.

(** X10: [cli()]: whatever the answers, [0 <= completed <= total = 5], so the
    score message is always "Keep pushing forward!" or "Good job!"; the
    "Great work!" and "Perfect score!" branches are never reached. *)
Theorem cli_score_messages (answer : string -> string) :
  let '(completed, total) := cli_score answer in
  0 <= completed <= total /\ total = 5
  /\ In (encouragement completed)
        ["Keep pushing forward! You can do this."; "Good job! Keep working on your habits."]%string.
Proof.
  unfold cli_score, count_completed.
  pose proof (count_fold_bounds (map answer cli_questions) 0) as H.
  rewrite length_map in H. cbn [cli_questions List.length Z.of_nat] in *.
  split; [lia |]. split; [reflexivity |].
  unfold encouragement.
  destruct (_ <=? 3) eqn:E3; [left; reflexivity |].
  apply Z.leb_gt in E3. destruct (_ <=? 6) eqn:E6; [right; left; reflexivity |].
  apply Z.leb_gt in E6. lia.
Qed.
